(** * SupabasePasswordReset: a shallow embedding and its properties

    The class [SupabasePasswordReset] (one constructor, one public
    operation [resetPasswordByEmail], two private helpers) is embedded
    as Rocq functions over an explicit state-and-exception monad.  The
    three third-party collaborators (supabase-js, bcrypt, mailgun.js)
    and [Math.random] are not part of the repository: their behaviour is
    a parameter, the record [World]. *)

From Stdlib Require Import ZArith String Ascii List Lia Bool.
From stdpp Require Import base option gmap strings list.
From Stdlib Require SpecFloat.
From Equations Require Import Equations.

Open Scope string_scope.
Open Scope list_scope.
Open Scope Z_scope.

(** ** JavaScript values that can be thrown, logged or returned as [error] *)

(** Enough of the JavaScript value universe to follow a caught value
    through [console.error(..., error)] and [error.message]: the
    primitives (numbers as integers), and objects as lists of own
    properties. *)
#[local] Unset Elimination Schemes.
Inductive JsValue : Type :=
| JsUndefined
| JsNull
| JsBoolean (b : bool)
| JsNumber (n : Z)
| JsString (s : string)
| JsObject (props : list (string * JsValue)).
#[local] Set Elimination Schemes.

(** ToBoolean. *)
Definition truthy (v : JsValue) : bool :=
  match v with
  | JsUndefined | JsNull => false
  | JsBoolean b => b
  | JsNumber n => negb (n =? 0)
  | JsString s => negb (String.eqb s "")
  | JsObject _ => true
  end.

Fixpoint own_property (name : string) (props : list (string * JsValue)) : JsValue :=
  match props with
  | [] => JsUndefined
  | (k, v) :: rest => if String.eqb k name then v else own_property name rest
  end.

(** [new Error(msg)] and the engine's [TypeError]. *)
Definition js_Error (msg : string) : JsValue :=
  JsObject [("name", JsString "Error"); ("message", JsString msg)].

Definition js_TypeError (msg : string) : JsValue :=
  JsObject [("name", JsString "TypeError"); ("message", JsString msg)].

(** Outcome of evaluating an expression or awaiting a promise: a value,
    or a thrown value / rejection reason. *)
Inductive Completion (A : Type) : Type :=
| Normal (a : A)
| Throw (e : JsValue).
Arguments Normal {A} a.
Arguments Throw {A} e.

(** [v.message].  Reading a property of [undefined] or [null] throws a
    TypeError; a primitive has no [message]; an object yields its
    property, or [undefined]. *)
Definition get_message (v : JsValue) : Completion JsValue :=
  match v with
  | JsUndefined =>
      Throw (js_TypeError "Cannot read properties of undefined (reading 'message')")
  | JsNull =>
      Throw (js_TypeError "Cannot read properties of null (reading 'message')")
  | JsObject props => Normal (own_property "message" props)
  | JsBoolean _ | JsNumber _ | JsString _ => Normal JsUndefined
  end.

Definition nullish (v : JsValue) : bool :=
  match v with
  | JsUndefined | JsNull => true
  | _ => false
  end.

(** ** Numbers: [Math.floor(Math.random() * chars.length)]

    [Math.random()] returns a binary64 number in [0, 1).  Every such
    number is an integer multiple of 2^-1074 with at most 53 significant
    bits, so a draw is modelled by the integer [k] with value
    [k * 2^-1074].  The product with the integer [chars.length] is exact
    in these units and is then rounded to binary64 (round to nearest,
    ties to even), which is written out in [round_binary64]. *)

Definition unit_scale : Z := 2 ^ 1074.

(** [k] has at most 53 significant bits. *)
Definition fits_significand (k : Z) : bool :=
  k mod 2 ^ Z.max 0 (Z.log2 k - 52) =? 0.

(** [k * 2^-1074] is a possible result of [Math.random()]. *)
Definition is_random_double (k : Z) : bool :=
  (0 <=? k) && (k <? unit_scale) && fits_significand k.

(** Round a non-negative multiple of 2^-1074 to the nearest binary64
    number, ties to even.  Below 2^53 units (the subnormals and the first
    binade) every multiple is representable. *)
Definition round_binary64 (n : Z) : Z :=
  let s := Z.max 0 (Z.log2 n - 52) in
  if s =? 0 then n
  else
    let q := Z.shiftr n s in
    let r := Z.land n (Z.ones s) in
    let half := Z.shiftl 1 (s - 1) in
    let up := (half <? r) || ((half =? r) && Z.odd q) in
    Z.shiftl (if up then q + 1 else q) s.

(** [x * n] for a draw [x] (in units) and an integer [n]. *)
Definition Number_times (x n : Z) : Z := round_binary64 (x * n).

(** [Math.floor] of a value in units, as an integer. *)
Definition Math_floor (v : Z) : Z := v / unit_scale.

(** ** Strings *)

(** [s.charAt(pos)]: the one-character string at [pos], or the empty
    string when [pos] is out of range. *)
Definition charAt (s : string) (pos : Z) : string :=
  if (0 <=? pos) && (pos <? Z.of_nat (String.length s)) then
    match String.get (Z.to_nat pos) s with
    | Some c => String c ""
    | None => ""
    end
  else "".

Definition chars : string :=
  "abcdefghijklmnopqrstuvwxyzABCDEFGHIJKLMNOPQRSTUVWXYZ0123456789!@#$%^&*()".

(** ** Data model *)

(** A row of [auth.users] as selected by ['id, email']. *)
Record User := { id : string; email : string }.

(** What awaiting a supabase-js query builder resolves to. *)
Module Postgrest.
Record Response := { data : option User; error : JsValue }.
End Postgrest.

(** Opaque client handles: what each factory was configured with. *)
Record SupabaseClient := { client_url : string; client_key : string }.
Record MailgunClient := { username : string; key : string }.

Record EmailData := { from : string; to : string; subject : string; text : string }.

(** [(email, password) => string]; a JavaScript function can also throw. *)
Definition Template : Type := string -> string -> Completion string.

(** [this.options]. *)
Module Options.
Record t := {
  saltRounds : Z;
  passwordLength : Z;
  fromEmail : string;
  fromName : string;
  subject : string;
  emailTemplateFunction : Template
}.
End Options.

(** [config.options]: every property may be missing; one that is there
    holds a value of its documented type. *)
Module UserOptions.
Record t := {
  saltRounds : option Z;
  passwordLength : option Z;
  fromEmail : option string;
  fromName : option string;
  subject : option string;
  emailTemplateFunction : option Template
}.
Definition none : t := Build_t None None None None None None.
End UserOptions.

(** The constructor's argument.  A required property is a string or is
    missing ([None]); [options] itself may be missing. *)
Module Config.
Record t := {
  supabaseUrl : option string;
  supabaseKey : option string;
  mailgunApiKey : option string;
  mailgunDomain : option string;
  options : option UserOptions.t
}.
End Config.

(** An instance of the class: [this.supabase], [this.mailgun],
    [this.mailgunDomain], [this.options]. *)
Record SupabasePasswordReset := {
  supabase : SupabaseClient;
  mailgun : MailgunClient;
  mailgunDomain : string;
  options : Options.t
}.

(** The object [resetPasswordByEmail] resolves to; [error] is [None]
    when the property is not there. *)
Record ResetResult := {
  success : bool;
  message : string;
  error : option JsValue
}.

(** ** The collaborators *)

(** Behaviour of everything outside the repository.  A factory either
    throws or hands back a client; a query, a hash and a send each resolve
    or reject; [Math_random n] is the result of the [n]-th call of
    [Math.random()], in units of 2^-1074. *)
Record World := {
  createClient_throws : string -> string -> option JsValue;
  mailgun_client_throws : string -> string -> option JsValue;
  select_eq_single : SupabaseClient -> string -> Completion Postgrest.Response;
  update_eq : SupabaseClient -> string -> string -> Completion Postgrest.Response;
  bcrypt_hash : string -> Z -> Completion string;
  messages_create : MailgunClient -> string -> EmailData -> Completion unit;
  Math_random : nat -> Z
}.

(** One entry per call that leaves the class, with its outcome. *)
Inductive Event : Type :=
| EvCreateClient (url key : string)
| EvMailgunClient (username key : string)
| EvSelect (c : SupabaseClient) (email : string) (r : Completion Postgrest.Response)
| EvHash (data : string) (rounds : Z) (r : Completion string)
| EvUpdate (c : SupabaseClient) (id : string) (hashedPassword : string)
    (r : Completion Postgrest.Response)
| EvTemplate (email password : string) (r : Completion string)
| EvSend (c : MailgunClient) (domain : string) (data : EmailData) (r : Completion unit)
| EvConsoleError (label : string) (v : JsValue).

(** What persists between statements: the [encrypted_password] column of
    [auth.users] by row id, and how many random numbers were drawn. *)
Record State := {
  encrypted_password : gmap string string;
  random_calls : nat
}.

(** The directory after [id]'s row received [encrypted]. *)
Definition stored (id encrypted : string) (st : State) : State :=
  {| encrypted_password := <[id := encrypted]> (encrypted_password st);
     random_calls := random_calls st |}.

(** ** The monad: state, exceptions, and a trace of events *)

Definition M (A : Type) : Type := State -> Completion A * State * list Event.

#[local] Instance M_ret : MRet M := fun A a st => (Normal a, st, []).

#[local] Instance M_bind : MBind M := fun A B k m st =>
  match m st with
  | (Normal a, st1, t1) =>
      let '(r, st2, t2) := k a st1 in (r, st2, t1 ++ t2)
  | (Throw e, st1, t1) => (Throw e, st1, t1)
  end.

(** An expression that touches nothing outside: it has a value or throws. *)
Definition eval {A} (r : Completion A) : M A := fun st => (r, st, []).

Definition throw {A} (e : JsValue) : M A := eval (Throw e).

(** [try { body } catch (error) { handler }]. *)
Definition try_catch {A} (body : M A) (handler : JsValue -> M A) : M A := fun st =>
  match body st with
  | (Throw e, st1, t1) =>
      let '(r, st2, t2) := handler e st1 in (r, st2, t1 ++ t2)
  | done => done
  end.

(** A call whose outcome the world decides and which leaves the state
    alone. *)
Definition perform {A} (r : Completion A) (ev : Event) : M A :=
  fun st => (r, st, [ev]).

Definition console_error (label : string) (v : JsValue) : M unit :=
  perform (Normal tt) (EvConsoleError label v).

Section Collaborators.
Variable W : World.

(** [createClient(url, key)]. *)
Definition createClient (url key : string) : M SupabaseClient :=
  perform
    match createClient_throws W url key with
    | Some e => Throw e
    | None => Normal {| client_url := url; client_key := key |}
    end
    (EvCreateClient url key).

(** [new Mailgun(formData).client({ username, key })]. *)
Definition mailgun_client (username key : string) : M MailgunClient :=
  perform
    match mailgun_client_throws W username key with
    | Some e => Throw e
    | None => Normal {| username := username; key := key |}
    end
    (EvMailgunClient username key).

(** [await c.from('auth.users').select('id, email').eq('email', email).single()]. *)
Definition select_user (c : SupabaseClient) (email : string) : M Postgrest.Response :=
  let r := select_eq_single W c email in
  perform r (EvSelect c email r).

(** [await bcrypt.hash(data, rounds)]. *)
Definition hash (data : string) (rounds : Z) : M string :=
  let r := bcrypt_hash W data rounds in
  perform r (EvHash data rounds r).

(** [await c.from('auth.users').update({ encrypted_password }).eq('id', id)].
    The directory's side of the call is outside the repository; it
    overwrites the stored hash of the row, so the column changes when the
    directory reports no error and is left alone otherwise. *)
Definition update_user (c : SupabaseClient) (id encrypted : string)
  : M Postgrest.Response := fun st =>
  let r := update_eq W c id encrypted in
  let st' :=
    match r with
    | Normal resp =>
        if truthy (Postgrest.error resp) then st else stored id encrypted st
    | Throw _ => st
    end in
  (r, st', [EvUpdate c id encrypted r]).

(** [f(email, password)] for the template function [f]. *)
Definition call_template (f : Template) (email password : string) : M string :=
  let r := f email password in
  perform r (EvTemplate email password r).

(** [await c.messages.create(domain, data)]. *)
Definition send_message (c : MailgunClient) (domain : string) (data : EmailData)
  : M unit :=
  let r := messages_create W c domain data in
  perform r (EvSend c domain data r).

(** [Math.random()]. *)
Definition random (st : State) : Z * State :=
  (Math_random W (random_calls st),
   {| encrypted_password := encrypted_password st;
      random_calls := S (random_calls st) |}).

End Collaborators.

(** ** The class *)

Definition nl : string := String "010" "".

(** [_defaultEmailTemplate(email, password)]. *)
Definition _defaultEmailTemplate : Template := fun email password =>
  Normal ("Hello," +:+ nl +:+ nl
    +:+ "Your password has been reset. Your new temporary password is: "
    +:+ password +:+ nl +:+ nl
    +:+ "Please login with this password and change it immediately for security reasons."
    +:+ nl +:+ nl
    +:+ "This is an automated message, please do not reply.").

(** [!v] for a required property: missing, or the empty string. *)
Definition falsy (v : option string) : bool :=
  match v with
  | None => true
  | Some s => String.eqb s ""
  end.

(** The string held by a required property (used after the guard). *)
Definition str (v : option string) : string := default "" v.

(** The literal in the constructor, before the spread. *)
Definition default_options : Options.t :=
  {| Options.saltRounds := 10;
     Options.passwordLength := 10;
     Options.fromEmail := "noreply@yourdomain.com";
     Options.fromName := "Password Reset";
     Options.subject := "Your Password Has Been Reset";
     Options.emailTemplateFunction := _defaultEmailTemplate |}.

(** [{ ...base, ...o }]: a property of [o] that is there replaces the one
    of [base]; spreading a missing [o] copies nothing. *)
Definition spread (base : Options.t) (o : option UserOptions.t) : Options.t :=
  match o with
  | None => base
  | Some u =>
      {| Options.saltRounds :=
           default (Options.saltRounds base) (UserOptions.saltRounds u);
         Options.passwordLength :=
           default (Options.passwordLength base) (UserOptions.passwordLength u);
         Options.fromEmail :=
           default (Options.fromEmail base) (UserOptions.fromEmail u);
         Options.fromName :=
           default (Options.fromName base) (UserOptions.fromName u);
         Options.subject :=
           default (Options.subject base) (UserOptions.subject u);
         Options.emailTemplateFunction :=
           default (Options.emailTemplateFunction base)
                   (UserOptions.emailTemplateFunction u) |}
  end.

Section Class.
Variable W : World.

(** [constructor(config)]. *)
Definition constructor (config : Config.t) : M SupabasePasswordReset :=
  if falsy (Config.supabaseUrl config) || falsy (Config.supabaseKey config)
     || falsy (Config.mailgunApiKey config) || falsy (Config.mailgunDomain config)
  then throw (js_Error "Missing required configuration parameters")
  else
    supabase ← createClient W (str (Config.supabaseUrl config))
                               (str (Config.supabaseKey config));
    mailgun ← mailgun_client W "api" (str (Config.mailgunApiKey config));
    mret {| supabase := supabase;
            mailgun := mailgun;
            mailgunDomain := str (Config.mailgunDomain config);
            options := spread default_options (Config.options config) |}.

(** The character appended in one round of the loop:
    [chars.charAt(Math.floor(Math.random() * chars.length))] for the
    draw [x]. *)
Definition pick (x : Z) : string :=
  charAt chars (Math_floor (Number_times x (Z.of_nat (String.length chars)))).

(** [for (let i = 0; i < this.options.passwordLength; i++) password += ...],
    entered with the current [i] and [password]. *)
Equations? generate_loop (this : SupabasePasswordReset) (i : Z) (password : string)
  (st : State) : string * State
  by wf (Z.to_nat (Options.passwordLength (options this) - i)) lt :=
  generate_loop this i password st
    with Z_lt_dec i (Options.passwordLength (options this)) => {
    | left _ =>
        generate_loop this (i + 1)
          (password +:+ pick (fst (random W st))) (snd (random W st));
    | right _ => (password, st) }.
Proof. lia. Qed.

(** [_generateRandomPassword()]. *)
Definition _generateRandomPassword (this : SupabasePasswordReset) : M string :=
  fun st =>
    let '(password, st') := generate_loop this 0 "" st in
    (Normal password, st', []).

(** The object literal bound to [emailData], given the template's
    output [body]. *)
Definition emailData (this : SupabasePasswordReset) (email body : string) : EmailData :=
  {| from := Options.fromName (options this) +:+ " <"
             +:+ Options.fromEmail (options this) +:+ ">";
     to := email;
     subject := Options.subject (options this);
     text := body |}.

(** The [catch (error)] block of [resetPasswordByEmail]. *)
Definition on_error (error : JsValue) : M ResetResult :=
  console_error "Error in resetPasswordByEmail:" error;;
  msg ← eval (get_message error);
  mret {| success := false;
          message := "An unexpected error occurred";
          error := Some msg |}.

(** The [try] block of [resetPasswordByEmail]. *)
Definition try_block (this : SupabasePasswordReset) (email : string) : M ResetResult :=
  resp ← select_user W (supabase this) email;
  let user := Postgrest.data resp in
  let userError := Postgrest.error resp in
  (* if (userError || !user) return { success: false, message: 'User not found' } *)
  match truthy userError, user with
  | false, Some user =>
      newPassword ← _generateRandomPassword this;
      hashedPassword ← hash W newPassword (Options.saltRounds (options this));
      resp' ← update_user W (supabase this) (id user) hashedPassword;
      let updateError := Postgrest.error resp' in
      if truthy updateError then
        console_error "Error updating password:" updateError;;
        mret {| success := false;
                message := "Failed to update password";
                error := None |}
      else
        body ← call_template (Options.emailTemplateFunction (options this))
                             email newPassword;
        send_message W (mailgun this) (mailgunDomain this)
                     (emailData this email body);;
        mret {| success := true;
                message := "Password reset successful. An email has been sent with the new password.";
                error := None |}
  | _, _ =>
      mret {| success := false; message := "User not found"; error := None |}
  end.

(** [async resetPasswordByEmail(email)]: [Normal r] when the promise
    resolves to [r], [Throw e] when it rejects with [e]. *)
Definition resetPasswordByEmail (this : SupabasePasswordReset) (email : string)
  : M ResetResult :=
  try_catch (try_block this email) on_error.

End Class.

(** ** Vocabulary of the properties *)

(** The alphabet as the specification words it: uppercase letters,
    lowercase letters, digits, and the punctuation symbols. *)
Definition between (lo hi : N) (c : ascii) : bool :=
  ((lo <=? N_of_ascii c) && (N_of_ascii c <=? hi))%N.

Definition is_uppercase : ascii -> bool := between 65 90.
Definition is_lowercase : ascii -> bool := between 97 122.
Definition is_digit : ascii -> bool := between 48 57.
Definition is_punctuation (c : ascii) : bool :=
  existsb (Ascii.eqb c) (list_ascii_of_string "!@#$%^&*()").

Definition in_alphabet (c : ascii) : bool :=
  is_uppercase c || is_lowercase c || is_digit c || is_punctuation c.

(** Every call of [Math.random()] returns a binary64 number in [0, 1). *)
Definition random_in_unit_interval (W : World) : Prop :=
  forall n, is_random_double (Math_random W n) = true.

(** The password [_generateRandomPassword] returns when entered in state
    [st], and the state it leaves. *)
Definition generated (W : World) (this : SupabasePasswordReset) (st : State) : string :=
  fst (generate_loop W this 0 "" st).

Definition after_generation (W : World) (this : SupabasePasswordReset) (st : State)
  : State :=
  snd (generate_loop W this 0 "" st).

(** The directory writes and the notification sends attempted in a
    trace, in order. *)
Definition writes (tr : list Event) : list (SupabaseClient * string * string) :=
  omap (fun ev => match ev with
                  | EvUpdate c i h _ => Some (c, i, h)
                  | _ => None
                  end) tr.

Definition sends (tr : list Event) : list (MailgunClient * string * EmailData) :=
  omap (fun ev => match ev with
                  | EvSend c d m _ => Some (c, d, m)
                  | _ => None
                  end) tr.

(** The four results the operation can resolve to. *)
Definition result_not_found : ResetResult :=
  {| success := false; message := "User not found"; error := None |}.

Definition result_update_failed : ResetResult :=
  {| success := false; message := "Failed to update password"; error := None |}.

Definition result_success : ResetResult :=
  {| success := true;
     message := "Password reset successful. An email has been sent with the new password.";
     error := None |}.

Definition result_unexpected (msg : JsValue) : ResetResult :=
  {| success := false; message := "An unexpected error occurred"; error := Some msg |}.

(** A lookup that neither reports an error nor comes back empty. *)
Definition found (resp : Postgrest.Response) (user : User) : Prop :=
  truthy (Postgrest.error resp) = false /\ Postgrest.data resp = Some user.

(** A required connection field is absent or empty. *)
Definition missing_required (config : Config.t) : Prop :=
  Exists (fun v => v = None \/ v = Some "")
    [Config.supabaseUrl config; Config.supabaseKey config;
     Config.mailgunApiKey config; Config.mailgunDomain config].

(** [config.options], with nothing supplied when it is missing. *)
Definition supplied (config : Config.t) : UserOptions.t :=
  default UserOptions.none (Config.options config).

(** The outcome of the [catch] block for the caught value [e]. *)
Definition caught (e : JsValue) : Completion ResetResult :=
  match get_message e with
  | Normal msg => Normal (result_unexpected msg)
  | Throw e' => Throw e'
  end.

Definition logged (e : JsValue) : Event :=
  EvConsoleError "Error in resetPasswordByEmail:" e.

(** The same world with another source of random numbers. *)
Definition with_random (W : World) (draws : nat -> Z) : World :=
  {| createClient_throws := createClient_throws W;
     mailgun_client_throws := mailgun_client_throws W;
     select_eq_single := select_eq_single W;
     update_eq := update_eq W;
     bcrypt_hash := bcrypt_hash W;
     messages_create := messages_create W;
     Math_random := draws |}.

(** A trace with the plaintext blanked where the hash and the template
    received it. *)
Definition redact (ev : Event) : Event :=
  match ev with
  | EvHash _ rounds r => EvHash "" rounds r
  | EvTemplate email _ r => EvTemplate email "" r
  | _ => ev
  end.

(** The contract of a one-way hash that the persisted-value claim needs:
    no input is its own hash. *)
Definition hash_differs_from_input (W : World) : Prop :=
  forall data rounds h, bcrypt_hash W data rounds = Normal h -> h <> data.

(** ** The paths through [resetPasswordByEmail]

    One constructor per way the body can end, with the outcome, the final
    state and the trace of that way.  [reset_path] below shows that every
    run of the function is one of them. *)
Inductive Path (W : World) (this : SupabasePasswordReset) (email : string) (st : State)
  : Completion ResetResult -> State -> list Event -> Prop :=
| path_lookup_throws e :
    select_eq_single W (supabase this) email = Throw e ->
    Path W this email st (caught e) st
      [EvSelect (supabase this) email (Throw e); logged e]
| path_not_found resp :
    select_eq_single W (supabase this) email = Normal resp ->
    truthy (Postgrest.error resp) = true \/ Postgrest.data resp = None ->
    Path W this email st (Normal result_not_found) st
      [EvSelect (supabase this) email (Normal resp)]
| path_hash_throws resp user e :
    select_eq_single W (supabase this) email = Normal resp ->
    found resp user ->
    bcrypt_hash W (generated W this st) (Options.saltRounds (options this)) = Throw e ->
    Path W this email st (caught e) (after_generation W this st)
      [EvSelect (supabase this) email (Normal resp);
       EvHash (generated W this st) (Options.saltRounds (options this)) (Throw e);
       logged e]
| path_update_throws resp user h e :
    select_eq_single W (supabase this) email = Normal resp ->
    found resp user ->
    bcrypt_hash W (generated W this st) (Options.saltRounds (options this)) = Normal h ->
    update_eq W (supabase this) (id user) h = Throw e ->
    Path W this email st (caught e) (after_generation W this st)
      [EvSelect (supabase this) email (Normal resp);
       EvHash (generated W this st) (Options.saltRounds (options this)) (Normal h);
       EvUpdate (supabase this) (id user) h (Throw e);
       logged e]
| path_update_failed resp user h resp' :
    select_eq_single W (supabase this) email = Normal resp ->
    found resp user ->
    bcrypt_hash W (generated W this st) (Options.saltRounds (options this)) = Normal h ->
    update_eq W (supabase this) (id user) h = Normal resp' ->
    truthy (Postgrest.error resp') = true ->
    Path W this email st (Normal result_update_failed) (after_generation W this st)
      [EvSelect (supabase this) email (Normal resp);
       EvHash (generated W this st) (Options.saltRounds (options this)) (Normal h);
       EvUpdate (supabase this) (id user) h (Normal resp');
       EvConsoleError "Error updating password:" (Postgrest.error resp')]
| path_template_throws resp user h resp' e :
    select_eq_single W (supabase this) email = Normal resp ->
    found resp user ->
    bcrypt_hash W (generated W this st) (Options.saltRounds (options this)) = Normal h ->
    update_eq W (supabase this) (id user) h = Normal resp' ->
    truthy (Postgrest.error resp') = false ->
    Options.emailTemplateFunction (options this) email (generated W this st) = Throw e ->
    Path W this email st (caught e) (stored (id user) h (after_generation W this st))
      [EvSelect (supabase this) email (Normal resp);
       EvHash (generated W this st) (Options.saltRounds (options this)) (Normal h);
       EvUpdate (supabase this) (id user) h (Normal resp');
       EvTemplate email (generated W this st) (Throw e);
       logged e]
| path_send_throws resp user h resp' body e :
    select_eq_single W (supabase this) email = Normal resp ->
    found resp user ->
    bcrypt_hash W (generated W this st) (Options.saltRounds (options this)) = Normal h ->
    update_eq W (supabase this) (id user) h = Normal resp' ->
    truthy (Postgrest.error resp') = false ->
    Options.emailTemplateFunction (options this) email (generated W this st)
      = Normal body ->
    messages_create W (mailgun this) (mailgunDomain this) (emailData this email body)
      = Throw e ->
    Path W this email st (caught e) (stored (id user) h (after_generation W this st))
      [EvSelect (supabase this) email (Normal resp);
       EvHash (generated W this st) (Options.saltRounds (options this)) (Normal h);
       EvUpdate (supabase this) (id user) h (Normal resp');
       EvTemplate email (generated W this st) (Normal body);
       EvSend (mailgun this) (mailgunDomain this) (emailData this email body) (Throw e);
       logged e]
| path_success resp user h resp' body u :
    select_eq_single W (supabase this) email = Normal resp ->
    found resp user ->
    bcrypt_hash W (generated W this st) (Options.saltRounds (options this)) = Normal h ->
    update_eq W (supabase this) (id user) h = Normal resp' ->
    truthy (Postgrest.error resp') = false ->
    Options.emailTemplateFunction (options this) email (generated W this st)
      = Normal body ->
    messages_create W (mailgun this) (mailgunDomain this) (emailData this email body)
      = Normal u ->
    Path W this email st (Normal result_success)
      (stored (id user) h (after_generation W this st))
      [EvSelect (supabase this) email (Normal resp);
       EvHash (generated W this st) (Options.saltRounds (options this)) (Normal h);
       EvUpdate (supabase this) (id user) h (Normal resp');
       EvTemplate email (generated W this st) (Normal body);
       EvSend (mailgun this) (mailgunDomain this) (emailData this email body) (Normal u)].

(** What a trace says happened. *)
Definition lookup_found (tr : list Event) (user : User) : Prop :=
  exists c e resp, In (EvSelect c e (Normal resp)) tr /\ found resp user.

Definition write_succeeded (tr : list Event) : Prop :=
  exists c i h resp,
    In (EvUpdate c i h (Normal resp)) tr /\ truthy (Postgrest.error resp) = false.

Definition write_failed (tr : list Event) : Prop :=
  exists c i h resp,
    In (EvUpdate c i h (Normal resp)) tr /\ truthy (Postgrest.error resp) = true.

Definition send_succeeded (tr : list Event) : Prop :=
  exists c d m u, In (EvSend c d m (Normal u)) tr.

Definition send_threw (tr : list Event) (e : JsValue) : Prop :=
  exists c d m, In (EvSend c d m (Throw e)) tr.

(** ** A test double for the collaborators

    A directory with one account, a hash that prefixes its input, a
    sender that accepts everything, and draws that cycle through
    multiples of 1/64; then the same with one collaborator replaced. *)

Definition sample_user : User := {| id := "u1"; email := "user@example.com" |}.

Definition no_error : Postgrest.Response :=
  {| Postgrest.data := None; Postgrest.error := JsNull |}.

Definition sample_world : World :=
  {| createClient_throws := fun _ _ => None;
     mailgun_client_throws := fun _ _ => None;
     select_eq_single := fun _ e =>
       if String.eqb e "user@example.com"
       then Normal {| Postgrest.data := Some sample_user; Postgrest.error := JsNull |}
       else Normal {| Postgrest.data := None;
                      Postgrest.error := js_Error "JSON object requested, multiple (or no) rows returned" |};
     update_eq := fun _ _ _ => Normal no_error;
     bcrypt_hash := fun data rounds => Normal ("$2b$10$" +:+ data);
     messages_create := fun _ _ _ => Normal tt;
     Math_random := fun n => Z.of_nat (Nat.modulo (7 * n + 3) 64) * 2 ^ 1068 |}.

Definition with_update (W : World) (r : Completion Postgrest.Response) : World :=
  {| createClient_throws := createClient_throws W;
     mailgun_client_throws := mailgun_client_throws W;
     select_eq_single := select_eq_single W;
     update_eq := fun _ _ _ => r;
     bcrypt_hash := bcrypt_hash W;
     messages_create := messages_create W;
     Math_random := Math_random W |}.

Definition with_send (W : World) (r : Completion unit) : World :=
  {| createClient_throws := createClient_throws W;
     mailgun_client_throws := mailgun_client_throws W;
     select_eq_single := select_eq_single W;
     update_eq := update_eq W;
     bcrypt_hash := bcrypt_hash W;
     messages_create := fun _ _ _ => r;
     Math_random := Math_random W |}.

Definition with_lookup (W : World) (r : Completion Postgrest.Response) : World :=
  {| createClient_throws := createClient_throws W;
     mailgun_client_throws := mailgun_client_throws W;
     select_eq_single := fun _ _ => r;
     update_eq := update_eq W;
     bcrypt_hash := bcrypt_hash W;
     messages_create := messages_create W;
     Math_random := Math_random W |}.

Definition sample_config (o : option UserOptions.t) : Config.t :=
  {| Config.supabaseUrl := Some "https://your-project.supabase.co";
     Config.supabaseKey := Some "your-supabase-service-role-key";
     Config.mailgunApiKey := Some "your-mailgun-api-key";
     Config.mailgunDomain := Some "your-mailgun-domain.com";
     Config.options := o |}.

Definition empty_directory : State :=
  {| encrypted_password := ∅; random_calls := 0 |}.

(** The instance [new SupabasePasswordReset(sample_config o)] yields. *)
Definition sample_instance (o : option UserOptions.t) : SupabasePasswordReset :=
  {| supabase := {| client_url := "https://your-project.supabase.co";
                    client_key := "your-supabase-service-role-key" |};
     mailgun := {| username := "api"; key := "your-mailgun-api-key" |};
     mailgunDomain := "your-mailgun-domain.com";
     options := spread default_options o |}.

(** [options: { passwordLength: n }]. *)
Definition only_passwordLength (n : Z) : UserOptions.t :=
  {| UserOptions.saltRounds := None;
     UserOptions.passwordLength := Some n;
     UserOptions.fromEmail := None;
     UserOptions.fromName := None;
     UserOptions.subject := None;
     UserOptions.emailTemplateFunction := None |}.

(** The instance constructed with [options: { passwordLength: n }]. *)
Definition instance_with_length (n : Z) : SupabasePasswordReset :=
  sample_instance (Some (only_passwordLength n)).

(** [options: { emailTemplateFunction: f }]. *)
Definition only_template (f : Template) : UserOptions.t :=
  {| UserOptions.saltRounds := None;
     UserOptions.passwordLength := None;
     UserOptions.fromEmail := None;
     UserOptions.fromName := None;
     UserOptions.subject := None;
     UserOptions.emailTemplateFunction := Some f |}.

(** The directory's answer to a write it refuses. *)
Definition permission_denied : Postgrest.Response :=
  {| Postgrest.data := None;
     Postgrest.error := js_Error "permission denied for table users" |}.

(** A template of the user's:
    [(email, password) => "Reset for " + email + ": " + password]. *)
Definition custom_template : Template := fun email password =>
  Normal ("Reset for " +:+ email +:+ ": " +:+ password).

(** The same world with other client factories. *)
Definition with_createClient (W : World) (throws : string -> string -> option JsValue)
  : World :=
  {| createClient_throws := throws;
     mailgun_client_throws := mailgun_client_throws W;
     select_eq_single := select_eq_single W;
     update_eq := update_eq W;
     bcrypt_hash := bcrypt_hash W;
     messages_create := messages_create W;
     Math_random := Math_random W |}.

(** A [createClient] that refuses a URL it cannot parse, as the one of
    supabase-js does. *)
Definition strict_world : World :=
  with_createClient sample_world
    (fun url _ =>
       if String.eqb url "not a url"
       then Some (js_Error "Invalid supabaseUrl: Must be a valid HTTP or HTTPS URL.")
       else None).

(** A configuration with all four required fields, for the URL [url]. *)
Definition config_with_url (url : string) : Config.t :=
  {| Config.supabaseUrl := Some url;
     Config.supabaseKey := Some "your-supabase-service-role-key";
     Config.mailgunApiKey := Some "your-mailgun-api-key";
     Config.mailgunDomain := Some "your-mailgun-domain.com";
     Config.options := None |}.

(** ** Cross-check of the rounding against the Standard Library

    The draw [k] as a binary64 number of [SpecFloat], its product with 72
    there, and the comparison with [Number_times]. *)
Definition to_binary64 (k : Z) : SpecFloat.spec_float :=
  SpecFloat.binary_normalize 53 1024 k (-1074) false.

Definition of_binary64 (f : SpecFloat.spec_float) : option Z :=
  match f with
  | SpecFloat.S754_zero _ => Some 0
  | SpecFloat.S754_finite false m e => Some (Z.pos m * 2 ^ (e + 1074))
  | _ => None
  end.

Definition agrees_with_SFmul (k : Z) : bool :=
  match of_binary64 (to_binary64 k),
        of_binary64 (SpecFloat.SFmul 53 1024 (to_binary64 k)
                       (SpecFloat.binary_normalize 53 1024 72 0 false)) with
  | Some k', Some product => (k' =? k) && (product =? Number_times k 72)
  | _, _ => false
  end.

(** ** The rest of the repository: closed forms, callers, and the form *)

(** [count] characters picked for the draws [n], [n + 1], ... *)
Fixpoint picks (W : World) (n count : nat) : string :=
  match count with
  | O => ""
  | S count' => pick (Math_random W n) +:+ picks W (S n) count'
  end.

(** The value a call in the trace threw, if it threw. *)
Definition thrown_by (ev : Event) : option JsValue :=
  match ev with
  | EvSelect _ _ (Throw e) | EvHash _ _ (Throw e) | EvUpdate _ _ _ (Throw e)
  | EvTemplate _ _ (Throw e) | EvSend _ _ _ (Throw e) => Some e
  | _ => None
  end.

(** Which collaborator an event went to. *)
Inductive Kind : Type := KFactory | KLookup | KHash | KWrite | KTemplate | KSend | KConsole.

Definition kind (ev : Event) : Kind :=
  match ev with
  | EvCreateClient _ _ | EvMailgunClient _ _ => KFactory
  | EvSelect _ _ _ => KLookup
  | EvHash _ _ _ => KHash
  | EvUpdate _ _ _ _ => KWrite
  | EvTemplate _ _ _ => KTemplate
  | EvSend _ _ _ _ => KSend
  | EvConsoleError _ _ => KConsole
  end.

(** [v[name]], for a name that the wrappers of the primitives do not
    define (as [message] and [success]). *)
Definition get_property (name : string) (v : JsValue) : Completion JsValue :=
  match v with
  | JsUndefined =>
      Throw (js_TypeError ("Cannot read properties of undefined (reading '" +:+ name +:+ "')"))
  | JsNull =>
      Throw (js_TypeError ("Cannot read properties of null (reading '" +:+ name +:+ "')"))
  | JsObject props => Normal (own_property name props)
  | JsBoolean _ | JsNumber _ | JsString _ => Normal JsUndefined
  end.

(** *** The Express route of the README *)

Module Http.
(** [req.body] as a body parser leaves it: an object whose [email], when
    it has one, is a string. *)
Record Body := { email : option string }.
(** [req]: its [body] is [undefined] when no body parser has run. *)
Record Request := { body : option Body }.
Record Response := { status : Z; json : ResetResult }.
End Http.

(** [const { email } = body]: destructuring [undefined] throws. *)
Definition destructure_email (body : option Http.Body) : M (option string) :=
  match body with
  | Some b => mret (Http.email b)
  | None =>
      throw (js_TypeError
               "Cannot destructure property 'email' of 'req.body' as it is undefined.")
  end.

(** The handler of [router.post('/reset', ...)], for the instance
    [passwordReset] of the module and the request [req].  A [Normal]
    value is what [res.status(...).json(...)] was given; a [Throw] is the
    rejection of the handler's promise, with nothing given to [res].
    The destructuring of [req.body] stands before the [try]. *)
Definition post_reset (W : World) (passwordReset : SupabasePasswordReset)
  (req : Http.Request) : M Http.Response :=
  email ← destructure_email (Http.body req);
  if falsy email then
    mret {| Http.status := 400;
            Http.json := {| success := false;
                            message := "Email is required";
                            error := None |} |}
  else
    try_catch
      (result ← resetPasswordByEmail W passwordReset (str email);
       mret {| Http.status := if success result then 200 else 400;
               Http.json := result |})
      (fun error =>
         console_error "Password reset error:" error;;
         mret {| Http.status := 500;
                 Http.json :=
                   {| success := false;
                      message := "Server error occurred while processing your request";
                      error := None |} |}).

(** The configuration the route's module builds from [process.env]. *)
Definition route_config (env : gmap string string) : Config.t :=
  {| Config.supabaseUrl := env !! "SUPABASE_URL";
     Config.supabaseKey := env !! "SUPABASE_SERVICE_KEY";
     Config.mailgunApiKey := env !! "MAILGUN_API_KEY";
     Config.mailgunDomain := env !! "MAILGUN_DOMAIN";
     Config.options :=
       Some {| UserOptions.saltRounds := None;
               UserOptions.passwordLength := None;
               UserOptions.fromEmail := Some "support@yourcompany.com";
               UserOptions.fromName := Some "Your Company Support";
               UserOptions.subject := None;
               UserOptions.emailTemplateFunction := None |} |}.

(** *** example.js *)

(** What the script prints or calls: a call of the class, or a
    [console.log] with its arguments. *)
Inductive Output : Type :=
| Service (ev : Event)
| ConsoleLog (args : list JsValue).

(** The configuration example.js builds from [process.env]. *)
Definition example_config (env : gmap string string) : Config.t :=
  {| Config.supabaseUrl := env !! "SUPABASE_URL";
     Config.supabaseKey := env !! "SUPABASE_SERVICE_KEY";
     Config.mailgunApiKey := env !! "MAILGUN_API_KEY";
     Config.mailgunDomain := env !! "MAILGUN_DOMAIN";
     Config.options := None |}.

(** [async function resetUserPassword(email)]. *)
Definition resetUserPassword (W : World) (passwordReset : SupabasePasswordReset)
  (email : string) (st : State) : Completion ResetResult * State * list Output :=
  let attempt :=
    ConsoleLog [JsString ("Attempting to reset password for " +:+ email +:+ "...")] in
  let '(r, st', tr) := resetPasswordByEmail W passwordReset email st in
  match r with
  | Normal result =>
      (Normal result, st',
       attempt :: map Service tr
       ++ [ConsoleLog [JsString (if success result then "✅ Success:" else "❌ Failed:");
                       JsString (message result)]])
  | Throw error =>
      let out :=
        attempt :: map Service tr
        ++ [Service (EvConsoleError "Error resetting password:" error)] in
      match get_message error with
      | Normal msg =>
          (Normal {| success := false;
                     message := "An unexpected error occurred";
                     error := Some msg |}, st', out)
      | Throw e => (Throw e, st', out)
      end
  end.

(** The block under [if (require.main === module)], for [process.argv[2]]. *)
Definition main (W : World) (passwordReset : SupabasePasswordReset)
  (argv2 : option string) (st : State) : State * list Output :=
  let userEmail := if falsy argv2 then "user@example.com" else str argv2 in
  let '(r, st', out) := resetUserPassword W passwordReset userEmail st in
  match r with
  | Normal _ => (st', out ++ [ConsoleLog [JsString "Process completed"]])
  | Throw err => (st', out ++ [Service (EvConsoleError "Process failed:" err)])
  end.

(** [node example.js [email]]: the module constructs its instance, then
    runs [main]; a constructor that throws ends the process. *)
Definition node_example (W : World) (env : gmap string string) (argv2 : option string)
  (st : State) : Completion unit * State * list Output :=
  match constructor W (example_config env) st with
  | (Normal passwordReset, st1, tr1) =>
      let '(st2, out) := main W passwordReset argv2 st1 in
      (Normal tt, st2, map Service tr1 ++ out)
  | (Throw e, st1, tr1) => (Throw e, st1, map Service tr1)
  end.

(** *** The React form of the README *)

Module Form.
Record Status := { message : JsValue; type : string }.
Record State := { email : string; status : Status; isSubmitting : bool }.
End Form.

(** The body of the [try] block of [handleSubmit] up to the values it
    reads: [data], then [data.message] and [data.success]. *)
Definition read_response (data : Completion JsValue) : Completion (JsValue * JsValue) :=
  match data with
  | Throw e => Throw e
  | Normal data =>
      match get_property "message" data with
      | Throw e => Throw e
      | Normal msg =>
          match get_property "success" data with
          | Throw e => Throw e
          | Normal ok => Normal (msg, ok)
          end
      end
  end.

(** The state setters. *)
Definition setEmail (v : string) (s : Form.State) : Form.State :=
  {| Form.email := v; Form.status := Form.status s;
     Form.isSubmitting := Form.isSubmitting s |}.

Definition setStatus (v : Form.Status) (s : Form.State) : Form.State :=
  {| Form.email := Form.email s; Form.status := v;
     Form.isSubmitting := Form.isSubmitting s |}.

Definition setIsSubmitting (v : bool) (s : Form.State) : Form.State :=
  {| Form.email := Form.email s; Form.status := Form.status s;
     Form.isSubmitting := v |}.

(** The state while the request is under way: after
    [setIsSubmitting(true)] and [setStatus({ message: '', type: '' })]. *)
Definition submitting (s : Form.State) : Form.State :=
  setStatus {| Form.message := JsString ""; Form.type := "" |}
    (setIsSubmitting true s).

(** [handleSubmit], as the state after all its updates; [fetch_json] is
    what [fetch('/api/reset', ...)] followed by [response.json()] gives
    for the email posted, the one of the state the handler was rendered
    with. *)
Definition handleSubmit (fetch_json : string -> Completion JsValue) (s : Form.State)
  : Form.State :=
  let s1 := submitting s in
  let s2 :=
    match read_response (fetch_json (Form.email s)) with
    | Normal (msg, ok) =>
        let s' :=
          setStatus {| Form.message := msg;
                       Form.type := if truthy ok then "success" else "error" |} s1 in
        if truthy ok then setEmail "" s' else s'
    | Throw _ =>
        setStatus
          {| Form.message :=
               JsString "Failed to connect to the server. Please try again later.";
             Form.type := "error" |} s1
    end in
  setIsSubmitting false s2.

(** What the render shows of a state: whether the button is disabled,
    its label, and whether the status block is there. *)
Definition submit_disabled (s : Form.State) : bool :=
  Form.isSubmitting s || String.eqb (Form.email s) "".

Definition submit_label (s : Form.State) : string :=
  if Form.isSubmitting s then "Processing..." else "Reset Password".

Definition status_shown (s : Form.State) : bool :=
  truthy (Form.message (Form.status s)).

(** A draw in the middle of the [i]-th of the 72 intervals of [0, 1):
    a multiple of 2^-10 next to [(i + 1/2) / 72]. *)
Definition draw_for (i : nat) : Z :=
  ((2 * Z.of_nat i + 1) * 1024 / 144) * 2 ^ 1064.

(** The largest binary64 number below 1/72. *)
Definition just_below_one_72th : Z := 8006399337547548 * 2 ^ 1015.

(** The text of the default template before and after the password. *)
Definition template_prefix : string :=
  "Hello," +:+ nl +:+ nl
  +:+ "Your password has been reset. Your new temporary password is: ".

Definition template_suffix : string :=
  nl +:+ nl
  +:+ "Please login with this password and change it immediately for security reasons."
  +:+ nl +:+ nl
  +:+ "This is an automated message, please do not reply.".

(** The two bodies the route answers with on its own. *)
Definition email_required : ResetResult :=
  {| success := false; message := "Email is required"; error := None |}.

Definition server_error : ResetResult :=
  {| success := false;
     message := "Server error occurred while processing your request";
     error := None |}.

(** A request whose body was parsed and has the given [email], and one
    that reached the handler with no parsed body. *)
Definition request_with (email : option string) : Http.Request :=
  {| Http.body := Some {| Http.email := email |} |}.

Definition request_without_body : Http.Request := {| Http.body := None |}.

(** An environment with the four variables set. *)
Definition sample_env : gmap string string :=
  {[ "SUPABASE_URL" := "https://your-project.supabase.co";
     "SUPABASE_SERVICE_KEY" := "your-supabase-service-role-key";
     "MAILGUN_API_KEY" := "your-mailgun-api-key";
     "MAILGUN_DOMAIN" := "your-mailgun-domain.com" ]}.

(** A form with an address typed in, and the network answering with the
    JSON of a success. *)
Definition typed_form : Form.State :=
  {| Form.email := "user@example.com";
     Form.status := {| Form.message := JsString ""; Form.type := "" |};
     Form.isSubmitting := false |}.

Definition success_json : JsValue :=
  JsObject [("success", JsBoolean true);
            ("message", JsString "Password reset successful. An email has been sent with the new password.")].

(** * Properties *)

(** ** Rounding: the index into [chars] stays in range *)

Lemma unit_scale_split : unit_scale = 2 ^ 1021 * 2 ^ 53.
Proof. unfold unit_scale. rewrite <- Z.pow_add_r by lia. reflexivity. Qed.

Lemma random_double_le (k : Z) :
  is_random_double k = true -> 0 <= k <= unit_scale - 2 ^ 1021.
Proof.
  unfold is_random_double, fits_significand.
  intros H. apply andb_prop in H as [H Hfit]. apply andb_prop in H as [H0 H1].
  apply Z.leb_le in H0. apply Z.ltb_lt in H1. apply Z.eqb_eq in Hfit.
  split; [exact H0|].
  rewrite unit_scale_split in *.
  assert (H73 : 2 ^ 1073 = 2 ^ 1021 * 2 ^ 52)
    by (rewrite <- Z.pow_add_r by lia; reflexivity).
  assert (Hpos : 0 < 2 ^ 1021) by (apply Z.pow_pos_nonneg; lia).
  destruct (Z_lt_dec k (2 ^ 1073)) as [Hsmall|Hbig].
  - rewrite H73 in Hsmall. remember (2 ^ 1021) as P. nia.
  - assert (Hlog : Z.log2 k = 1073).
    { apply Z.log2_unique; [lia|]. split; [lia|].
      replace (2 ^ (1073 + 1)) with (2 ^ 1021 * 2 ^ 53); [exact H1|].
      rewrite <- Z.pow_add_r by lia. reflexivity. }
    rewrite Hlog in Hfit.
    replace (Z.max 0 (1073 - 52)) with 1021 in Hfit by reflexivity.
    pose proof (Z.div_mod k (2 ^ 1021) ltac:(lia)) as Hdm.
    rewrite Hfit in Hdm.
    assert (k / 2 ^ 1021 < 2 ^ 53) by (apply Z.div_lt_upper_bound; lia).
    remember (2 ^ 1021) as P. remember (k / P) as q. nia.
Qed.

Lemma round_binary64_nonneg (n : Z) : 0 <= n -> 0 <= round_binary64 n.
Proof.
  intros Hn. unfold round_binary64.
  destruct (Z.max 0 (Z.log2 n - 52) =? 0) eqn:Hs; [exact Hn|].
  apply Z.shiftl_nonneg.
  assert (0 <= Z.shiftr n (Z.max 0 (Z.log2 n - 52))) by (apply Z.shiftr_nonneg; exact Hn).
  destruct (_ || _); lia.
Qed.

(** Rounding moves a number up by at most half a unit in the last place. *)
Lemma round_binary64_upper (n : Z) :
  0 <= n -> round_binary64 n <= n + 2 ^ (Z.max 0 (Z.log2 n - 52) - 1).
Proof.
  intros Hn. unfold round_binary64.
  set (s := Z.max 0 (Z.log2 n - 52)).
  destruct (s =? 0) eqn:Hs.
  - assert (0 <= 2 ^ (s - 1)) by (apply Z.pow_nonneg; lia). lia.
  - apply Z.eqb_neq in Hs. assert (Hs0 : 0 < s) by lia.
    rewrite Z.shiftl_mul_pow2, Z.shiftr_div_pow2, Z.land_ones by lia.
    rewrite Z.shiftl_mul_pow2 by lia. rewrite Z.mul_1_l.
    assert (Hpow : 2 ^ s = 2 * 2 ^ (s - 1)).
    { rewrite <- Z.pow_succ_r by lia. f_equal. lia. }
    assert (Hh : 0 < 2 ^ (s - 1)) by (apply Z.pow_pos_nonneg; lia).
    pose proof (Z.div_mod n (2 ^ s) ltac:(lia)) as Hdm.
    pose proof (Z.mod_pos_bound n (2 ^ s) ltac:(lia)) as Hr.
    remember (2 ^ (s - 1)) as h. remember (n / 2 ^ s) as q. remember (n mod 2 ^ s) as r.
    rewrite Hpow in *.
    destruct ((h <? r) || ((h =? r) && Z.odd q)) eqn:Hup.
    + assert (h <= r).
      { apply orb_prop in Hup as [Hup|Hup].
        - apply Z.ltb_lt in Hup. lia.
        - apply andb_prop in Hup as [Hup _]. apply Z.eqb_eq in Hup. lia. }
      nia.
    + nia.
Qed.

Lemma floor_times_in_range (k : Z) :
  is_random_double k = true ->
  0 <= Math_floor (Number_times k 72) < 72.
Proof.
  intros Hk. apply random_double_le in Hk as [Hk0 Hk1].
  unfold Math_floor, Number_times.
  assert (Hu : 0 < unit_scale) by (unfold unit_scale; apply Z.pow_pos_nonneg; lia).
  split.
  - apply Z.div_pos; [apply round_binary64_nonneg; lia | exact Hu].
  - apply Z.div_lt_upper_bound; [exact Hu|].
    pose proof (round_binary64_upper (k * 72) ltac:(lia)) as Hup.
    assert (Hhalf : 2 ^ (Z.max 0 (Z.log2 (k * 72) - 52) - 1) <= 2 ^ 1027).
    { destruct (Z.eq_dec (k * 72) 0) as [Hz|Hnz].
      - rewrite Hz. simpl Z.log2. replace (Z.max 0 (0 - 52) - 1) with (-1) by reflexivity.
        rewrite Z.pow_neg_r by lia. apply Z.pow_nonneg. lia.
      - apply Z.pow_le_mono_r; [lia|].
        assert (Z.log2 (k * 72) < 1081).
        { apply Z.log2_lt_pow2; [lia|].
          replace (2 ^ 1081) with (128 * unit_scale).
          - assert (0 < 2 ^ 1021) by (apply Z.pow_pos_nonneg; lia). lia.
          - unfold unit_scale. change 128 with (2 ^ 7). rewrite <- Z.pow_add_r by lia. reflexivity. }
        lia. }
    assert (H27 : 2 ^ 1027 = 64 * 2 ^ 1021).
    { change 64 with (2 ^ 6). rewrite <- Z.pow_add_r by lia. reflexivity. }
    assert (0 < 2 ^ 1021) by (apply Z.pow_pos_nonneg; lia).
    remember (2 ^ 1021) as P. remember (2 ^ 1027) as P27.
    remember (round_binary64 (k * 72)) as R.
    remember (2 ^ (Z.max 0 (Z.log2 (k * 72) - 52) - 1)) as H'.
    lia.
Qed.

(** [round_binary64] agrees with the Standard Library's specification of
    binary64 multiplication on draws from every part of the range:
    subnormals, exact products, products rounded down, up, and ties. *)
Example round_binary64_agrees_with_SFmul :
  forallb agrees_with_SFmul
    [0; 1; 3; 2 ^ 52 - 1; 2 ^ 52 + 1; 2 ^ 53 - 1; (2 ^ 52 + 3) * 2;
     (2 ^ 52 + 12345) * 2 ^ 500; (2 ^ 53 - 3) * 2 ^ 1000; 2 ^ 1073;
     (2 ^ 52 + 5) * 2 ^ 1021; (2 ^ 52 + 7) * 2 ^ 1021; 6004799503160661 * 2 ^ 1021;
     (2 ^ 52 + 2 ^ 51 + 1) * 2 ^ 1021; 2 ^ 1074 - 2 ^ 1021] = true.
Proof. vm_compute. reflexivity. Qed.

(** The largest draw is the one place where rounding matters: as a real
    number [72 * (1 - 2^-53)] is nearer to 72 than the spacing of
    binary64 there, yet it rounds down, and the index stays 71.  An
    integer that is not a binary64 number would reach 72. *)
Example largest_draw_picks_last_character :
  is_random_double (2 ^ 1074 - 2 ^ 1021) = true /\
  Math_floor (Number_times (2 ^ 1074 - 2 ^ 1021) 72) = 71 /\
  pick (2 ^ 1074 - 2 ^ 1021) = ")" /\
  is_random_double (2 ^ 1074 - 1) = false /\
  Math_floor (Number_times (2 ^ 1074 - 1) 72) = 72.
Proof. vm_compute. repeat split; reflexivity. Qed.

(** ** Strings and the generation loop *)

Lemma charAt_chars (i : Z) :
  0 <= i < 72 ->
  exists c, charAt chars i = String c "" /\ in_alphabet c = true.
Proof.
  intros Hi.
  assert (Hall : forallb (fun n => match charAt chars (Z.of_nat n) with
                                   | String c EmptyString => in_alphabet c
                                   | _ => false
                                   end) (seq 0 72) = true) by (vm_compute; reflexivity).
  rewrite forallb_forall in Hall.
  specialize (Hall (Z.to_nat i)).
  rewrite Z2Nat.id in Hall by lia.
  destruct (charAt chars i) as [|c [|]]; try (discriminate Hall; apply in_seq; lia).
  exists c. split; [reflexivity|]. apply Hall, in_seq. lia.
Qed.

Lemma pick_char (x : Z) :
  is_random_double x = true ->
  exists c, pick x = String c "" /\ in_alphabet c = true.
Proof.
  intros Hx. unfold pick.
  change (Z.of_nat (String.length chars)) with 72.
  apply charAt_chars, floor_times_in_range, Hx.
Qed.

Lemma append_cons (c : ascii) (s1 s2 : string) :
  String c s1 +:+ s2 = String c (s1 +:+ s2).
Proof. reflexivity. Qed.

Lemma length_append (s1 s2 : string) :
  String.length (s1 +:+ s2) = (String.length s1 + String.length s2)%nat.
Proof.
  induction s1 as [|c s1 IH]; [reflexivity|].
  rewrite append_cons. simpl. rewrite IH. reflexivity.
Qed.

Lemma append_assoc (s1 s2 s3 : string) : (s1 +:+ s2) +:+ s3 = s1 +:+ (s2 +:+ s3).
Proof.
  induction s1 as [|c s1 IH]; [reflexivity|].
  rewrite !append_cons, IH. reflexivity.
Qed.

Lemma append_empty_r (s : string) : s +:+ "" = s.
Proof.
  induction s as [|c s IH]; [reflexivity|].
  rewrite append_cons, IH. reflexivity.
Qed.

(** What the loop does from round [i] on: it extends [password] by one
    alphabet character per remaining round, and leaves the directory
    alone. *)
Lemma generate_loop_spec W this i password st :
  exists suffix,
    fst (generate_loop W this i password st) = password +:+ suffix /\
    (random_in_unit_interval W ->
       String.length suffix = Z.to_nat (Options.passwordLength (options this) - i) /\
       Forall (fun c => in_alphabet c = true) (list_ascii_of_string suffix)) /\
    encrypted_password (snd (generate_loop W this i password st)) = encrypted_password st.
Proof.
  funelim (generate_loop W this i password st).
  - destruct H as (suffix & Hfst & Hrand & Hdir).
    exists (pick (fst (random W st)) +:+ suffix).
    rewrite Hfst, append_assoc. split; [reflexivity|]. split; [|exact Hdir].
    intros HW. destruct (Hrand HW) as [Hlen Hall].
    destruct (pick_char (fst (random W st)) (HW _)) as (c & Hc & Hin).
    rewrite Hc, append_cons. split.
    + change (String.length (String c ("" +:+ suffix))) with (S (String.length suffix)).
      rewrite Hlen. lia.
    + change (list_ascii_of_string (String c ("" +:+ suffix)))
        with (c :: list_ascii_of_string suffix).
      constructor; assumption.
  - exists "". rewrite append_empty_r. simpl. repeat split.
    + rewrite Z2Nat.nonpos; [reflexivity | lia].
    + constructor.
Qed.

Lemma generated_spec W this st :
  random_in_unit_interval W ->
  String.length (generated W this st) = Z.to_nat (Options.passwordLength (options this)) /\
  Forall (fun c => in_alphabet c = true) (list_ascii_of_string (generated W this st)).
Proof.
  intros HW. unfold generated.
  destruct (generate_loop_spec W this 0 "" st) as (suffix & Hfst & Hrand & _).
  rewrite Hfst. simpl. rewrite Z.sub_0_r in Hrand. exact (Hrand HW).
Qed.

Lemma after_generation_directory W this st :
  encrypted_password (after_generation W this st) = encrypted_password st.
Proof.
  unfold after_generation.
  destruct (generate_loop_spec W this 0 "" st) as (_ & _ & _ & Hdir). exact Hdir.
Qed.

Lemma generated_nonpositive W this st :
  Options.passwordLength (options this) <= 0 ->
  generated W this st = "" /\ after_generation W this st = st.
Proof.
  intros HL. unfold generated, after_generation.
  funelim (generate_loop W this 0 "" st); [lia|].
  split; reflexivity.
Qed.

Lemma generateRandomPassword_run W this st :
  _generateRandomPassword W this st
  = (Normal (generated W this st), after_generation W this st, []).
Proof.
  unfold _generateRandomPassword, generated, after_generation.
  destruct (generate_loop W this 0 "" st); reflexivity.
Qed.

Lemma sample_world_random : random_in_unit_interval sample_world.
Proof.
  intros n. simpl.
  assert (Hall : forallb (fun m => is_random_double (Z.of_nat m * 2 ^ 1068)) (seq 0 64) = true)
    by (vm_compute; reflexivity).
  rewrite forallb_forall in Hall. apply Hall, in_seq.
  pose proof (Nat.mod_upper_bound (7 * n + 3) 64). lia.
Qed.

(** ** The constructor *)

Lemma falsy_spec (v : option string) : falsy v = true <-> v = None \/ v = Some "".
Proof.
  destruct v as [s|]; simpl.
  - rewrite String.eqb_eq. split.
    + intros ->. right. reflexivity.
    + intros [H|H]; [discriminate H | injection H as H; exact H].
  - split; [left; reflexivity | reflexivity].
Qed.

(** The guard of the constructor is the test for a missing field. *)
Lemma guard_spec (config : Config.t) :
  falsy (Config.supabaseUrl config) || falsy (Config.supabaseKey config)
  || falsy (Config.mailgunApiKey config) || falsy (Config.mailgunDomain config) = true
  <-> missing_required config.
Proof.
  unfold missing_required.
  rewrite !Exists_cons, Exists_nil, !orb_true_iff, !falsy_spec. tauto.
Qed.

Lemma constructor_missing W config st :
  missing_required config ->
  constructor W config st
  = (Throw (js_Error "Missing required configuration parameters"), st, []).
Proof.
  intros Hmiss. apply guard_spec in Hmiss. unfold constructor. rewrite Hmiss. reflexivity.
Qed.

(** What the constructor does once the guard has passed. *)
Lemma constructor_complete W config st :
  ~ missing_required config ->
  constructor W config st =
    match createClient_throws W (str (Config.supabaseUrl config))
                                (str (Config.supabaseKey config)) with
    | Some e =>
        (Throw e, st,
         [EvCreateClient (str (Config.supabaseUrl config)) (str (Config.supabaseKey config))])
    | None =>
        match mailgun_client_throws W "api" (str (Config.mailgunApiKey config)) with
        | Some e =>
            (Throw e, st,
             [EvCreateClient (str (Config.supabaseUrl config))
                             (str (Config.supabaseKey config));
              EvMailgunClient "api" (str (Config.mailgunApiKey config))])
        | None =>
            (Normal
               {| supabase := {| client_url := str (Config.supabaseUrl config);
                                 client_key := str (Config.supabaseKey config) |};
                  mailgun := {| username := "api";
                                key := str (Config.mailgunApiKey config) |};
                  mailgunDomain := str (Config.mailgunDomain config);
                  options := spread default_options (Config.options config) |},
             st,
             [EvCreateClient (str (Config.supabaseUrl config))
                             (str (Config.supabaseKey config));
              EvMailgunClient "api" (str (Config.mailgunApiKey config))])
        end
    end.
Proof.
  intros Hok. rewrite <- guard_spec in Hok. apply not_true_is_false in Hok.
  unfold constructor. rewrite Hok.
  unfold createClient, mailgun_client, perform, mbind, M_bind, mret, M_ret.
  destruct (createClient_throws W _ _); [reflexivity|].
  destruct (mailgun_client_throws W _ _); reflexivity.
Qed.

Lemma missing_required_dec (config : Config.t) :
  missing_required config \/ ~ missing_required config.
Proof.
  rewrite <- guard_spec. destruct (_ || _); [left; reflexivity | right; discriminate].
Qed.

Lemma constructor_options W config st this st' tr :
  constructor W config st = (Normal this, st', tr) ->
  ~ missing_required config /\
  options this = spread default_options (Config.options config).
Proof.
  intros Hc.
  destruct (missing_required_dec config) as [Hmiss|Hok].
  - rewrite (constructor_missing W config st Hmiss) in Hc. discriminate Hc.
  - split; [exact Hok|].
    rewrite (constructor_complete W config st Hok) in Hc.
    destruct (createClient_throws W _ _); [discriminate Hc|].
    destruct (mailgun_client_throws W _ _); [discriminate Hc|].
    injection Hc as <- _ _. reflexivity.
Qed.

Lemma spread_fields (o : option UserOptions.t) :
  let u := default UserOptions.none o in
  let eff := spread default_options o in
  Options.saltRounds eff = default 10 (UserOptions.saltRounds u) /\
  Options.passwordLength eff = default 10 (UserOptions.passwordLength u) /\
  Options.fromEmail eff = default "noreply@yourdomain.com" (UserOptions.fromEmail u) /\
  Options.fromName eff = default "Password Reset" (UserOptions.fromName u) /\
  Options.subject eff = default "Your Password Has Been Reset" (UserOptions.subject u) /\
  Options.emailTemplateFunction eff
    = default _defaultEmailTemplate (UserOptions.emailTemplateFunction u).
Proof. destruct o as [u|]; simpl; repeat split; reflexivity. Qed.

Example sample_instance_constructed (o : option UserOptions.t) :
  constructor sample_world (sample_config o) empty_directory
  = (Normal (sample_instance o), empty_directory,
     [EvCreateClient "https://your-project.supabase.co" "your-supabase-service-role-key";
      EvMailgunClient "api" "your-mailgun-api-key"]).
Proof. reflexivity. Qed.

(** ** Every run follows a path *)

Lemma on_error_run e st : on_error e st = (caught e, st, [logged e]).
Proof.
  unfold on_error, caught, console_error, perform, eval, mbind, M_bind, mret, M_ret.
  destruct (get_message e); reflexivity.
Qed.

Lemma try_block_path W this email st r st' tr :
  try_block W this email st = (r, st', tr) ->
  Path W this email st
    (match r with Throw e => caught e | Normal a => Normal a end) st'
    (match r with Throw e => tr ++ [logged e] | Normal _ => tr end).
Proof.
  unfold try_block, select_user, _generateRandomPassword,
    hash, update_user, call_template, send_message, console_error, perform, eval.
  unfold mbind, M_bind, mret, M_ret.
  destruct (select_eq_single W (supabase this) email) as [resp|e] eqn:Hsel.
  2:{ intros ?; simplify_eq/=. eapply path_lookup_throws; eauto. }
  destruct (truthy (Postgrest.error resp)) eqn:Herr.
  { intros ?; simplify_eq/=. eapply path_not_found; eauto. }
  destruct (Postgrest.data resp) as [user|] eqn:Hdata.
  2:{ intros ?; simplify_eq/=. eapply path_not_found; eauto. }
  assert (Hf : found resp user) by (split; assumption).
  pose proof (eq_refl : generated W this st = fst (generate_loop W this 0 "" st)) as Hg.
  pose proof (eq_refl : after_generation W this st = snd (generate_loop W this 0 "" st)) as Ha.
  cbv beta.
  destruct (generate_loop W this 0 "" st) as [pw st1]. simpl in Hg, Ha. subst pw st1.
  destruct (bcrypt_hash W _ (Options.saltRounds (options this))) as [h|e] eqn:Hh.
  2:{ intros ?; simplify_eq/=. eapply path_hash_throws; eauto. }
  destruct (update_eq W (supabase this) (id user) h) as [resp'|e] eqn:Hu.
  2:{ intros ?; simplify_eq/=. eapply path_update_throws; eauto. }
  destruct (truthy (Postgrest.error resp')) eqn:Herr'.
  { intros ?; simplify_eq/=. eapply path_update_failed; eauto. }
  destruct (Options.emailTemplateFunction (options this) email _) as [body|e] eqn:Ht.
  2:{ intros ?; simplify_eq/=. eapply path_template_throws; eauto. }
  destruct (messages_create W (mailgun this) (mailgunDomain this) (emailData this email body)) as [u|e] eqn:Hs.
  2:{ intros ?; simplify_eq/=. eapply path_send_throws; eauto. }
  intros ?; simplify_eq/=. eapply path_success; eauto.
Qed.

Lemma reset_path W this email st r st' tr :
  resetPasswordByEmail W this email st = (r, st', tr) ->
  Path W this email st r st' tr.
Proof.
  unfold resetPasswordByEmail, try_catch.
  destruct (try_block W this email st) as [[r0 s0] t0] eqn:Hbody.
  apply try_block_path in Hbody.
  destruct r0 as [a|e].
  - intros ?; simplify_eq/=. exact Hbody.
  - rewrite on_error_run. intros ?; simplify_eq/=. exact Hbody.
Qed.

(** A run is determined by what the collaborators answer: invert the path
    of a run and discard the paths that contradict the hypotheses. *)
Ltac invert_run H :=
  apply reset_path in H; inversion H; subst; clear H;
  unfold lookup_found, write_succeeded, write_failed, send_succeeded, send_threw,
    found in *;
  simpl in *.

Ltac absurd_event :=
  repeat match goal with
  | H : exists _, _ |- _ => destruct H
  | H : _ /\ _ |- _ => destruct H
  | H : _ \/ _ |- _ => destruct H
  | H : False |- _ => destruct H
  | H1 : ?x = Normal _, H2 : ?x = _ |- _ => rewrite H1 in H2
  | H1 : ?x = Throw _, H2 : ?x = _ |- _ => rewrite H1 in H2
  | H : @eq Event _ _ |- _ => discriminate H || (injection H as H; subst)
  | H : Normal _ = Normal _ |- _ => injection H as H; subst
  | H : Some _ = Some _ |- _ => injection H as H; subst
  end; try congruence; simplify_eq/=.

Ltac run_sample run :=
  match goal with
  | |- context [resetPasswordByEmail ?W ?this ?email ?st] =>
      set (run := resetPasswordByEmail W this email st);
      exists (fst (fst run)), (snd (fst run)), (snd run);
      split; [clearbody run; destruct run as [[? ?] ?]; reflexivity|]
  end.

(** The password handed to the hash is the one the generation returned. *)
Lemma hashed_is_generated W this email st r st' tr data rounds res :
  resetPasswordByEmail W this email st = (r, st', tr) ->
  In (EvHash data rounds res) tr ->
  data = generated W this st /\ rounds = Options.saltRounds (options this) /\
  res = bcrypt_hash W data rounds.
Proof.
  intros Hrun Hin. invert_run Hrun; absurd_event; repeat split; congruence.
Qed.

Lemma written_is_hash W this email st r st' tr c i v :
  resetPasswordByEmail W this email st = (r, st', tr) ->
  In (c, i, v) (writes tr) ->
  bcrypt_hash W (generated W this st) (Options.saltRounds (options this)) = Normal v.
Proof.
  intros Hrun Hin. invert_run Hrun; absurd_event; assumption.
Qed.

(** What a run leaves in the directory: the rows as they were, except
    that the row of the account may hold the hash. *)
Lemma directory_after_run W this email st r st' tr k v :
  resetPasswordByEmail W this email st = (r, st', tr) ->
  encrypted_password st' !! k = Some v ->
  encrypted_password st !! k = Some v \/
  bcrypt_hash W (generated W this st) (Options.saltRounds (options this)) = Normal v.
Proof.
  intros Hrun Hk.
  invert_run Hrun;
    try (left; rewrite ?after_generation_directory in Hk; exact Hk);
    (rewrite lookup_insert in Hk; case_decide;
     [right; congruence | left; rewrite after_generation_directory in Hk; exact Hk]).
Qed.

(** The catch block resolves for every caught value that is not
    [undefined] or [null], and throws otherwise. *)
Lemma caught_nullish e :
  (nullish e = false -> caught e = Normal (result_unexpected
      match e with JsObject props => own_property "message" props | _ => JsUndefined end)) /\
  (nullish e = true -> exists e', caught e = Throw e').
Proof.
  destruct e; simpl; split; intros H; try discriminate H; try reflexivity;
    eexists; reflexivity.
Qed.

(** Every run ends in one of the four results, or rejects; it rejects
    only when the value a collaborator threw was [undefined] or [null]. *)
Lemma reset_outcomes W this email st r st' tr :
  resetPasswordByEmail W this email st = (r, st', tr) ->
  r = Normal result_not_found \/ r = Normal result_update_failed \/
  r = Normal result_success \/
  exists e, In (logged e) tr /\ r = caught e.
Proof.
  intros Hrun. invert_run Hrun;
    first [ left; reflexivity
          | right; left; reflexivity
          | right; right; left; reflexivity
          | do 3 right; eexists; split; [simpl; tauto | reflexivity] ].
Qed.

Lemma reset_resolves_unless_nullish W this email st r st' tr :
  resetPasswordByEmail W this email st = (r, st', tr) ->
  (forall e, In (logged e) tr -> nullish e = false) ->
  exists res, r = Normal res.
Proof.
  intros Hrun Hobj.
  destruct (reset_outcomes _ _ _ _ _ _ _ Hrun) as [->|[->|[->|(e & Hin & ->)]]]; eauto.
  destruct (caught_nullish e) as [Hres _]. rewrite (Hres (Hobj e Hin)). eauto.
Qed.

(** Two runs that differ only in the random numbers drawn, and for which
    the hash and the template happen to answer alike, cannot be told
    apart: same outcome, same directory, same calls up to the plaintext
    argument of the hash and of the template. *)
Lemma plaintext_flows_to_hash_and_template W this email st draws r st' tr r2 st2 tr2 :
  resetPasswordByEmail W this email st = (r, st', tr) ->
  resetPasswordByEmail (with_random W draws) this email st = (r2, st2, tr2) ->
  bcrypt_hash W (generated (with_random W draws) this st) (Options.saltRounds (options this))
  = bcrypt_hash W (generated W this st) (Options.saltRounds (options this)) ->
  Options.emailTemplateFunction (options this) email (generated (with_random W draws) this st)
  = Options.emailTemplateFunction (options this) email (generated W this st) ->
  r2 = r /\ encrypted_password st2 = encrypted_password st' /\
  map redact tr2 = map redact tr.
Proof.
  intros Hrun Hrun2 Hhash Htmpl.
  apply reset_path in Hrun. apply reset_path in Hrun2.
  inversion Hrun; subst; clear Hrun; inversion Hrun2; subst; clear Hrun2;
    unfold found in *; simpl in *;
    rewrite ?Hhash, ?Htmpl in *;
    absurd_event;
    rewrite ?after_generation_directory;
    repeat split; congruence.
Qed.

Lemma sample_hash_differs : hash_differs_from_input sample_world.
Proof.
  intros data rounds h Hh Heq. simpl in Hh. injection Hh as Hh. subst h.
  apply (f_equal String.length) in Heq. rewrite length_append in Heq.
  simpl in Heq. lia.
Qed.

(** ** The claims *)

(** C1. When the lookup returns a record, the write of the hash succeeds
    and the notification is sent, [resetPasswordByEmail] resolves to
    exactly [{ success: true, message: "Password reset successful. An
    email has been sent with the new password." }]; the run made exactly
    one directory write, against the id of that record, and exactly one
    send, addressed to the input email. *)
Theorem reset_success W this email st r st' tr user :
  resetPasswordByEmail W this email st = (r, st', tr) ->
  lookup_found tr user ->
  write_succeeded tr ->
  send_succeeded tr ->
  r = Normal result_success /\
  (exists h, writes tr = [(supabase this, id user, h)] /\
             encrypted_password st' !! id user = Some h) /\
  (exists m, sends tr = [(mailgun this, mailgunDomain this, m)] /\ to m = email).
Proof.
  intros Hrun Hlookup Hwrite Hsend.
  invert_run Hrun; absurd_event.
  split; [reflexivity|]. split; eexists; (split; [reflexivity|]).
  - apply lookup_insert_eq.
  - reflexivity.
Qed.

Lemma reset_success_witness :
  exists r st' tr,
    resetPasswordByEmail sample_world (sample_instance None) "user@example.com"
      empty_directory = (r, st', tr) /\
    r = Normal result_success /\
    (exists h, writes tr = [(supabase (sample_instance None), "u1", h)] /\
               encrypted_password st' !! "u1" = Some h) /\
    (exists m, sends tr = [(mailgun (sample_instance None),
                            mailgunDomain (sample_instance None), m)]
               /\ to m = "user@example.com").
Proof.
  run_sample run.
  apply (reset_success sample_world (sample_instance None) "user@example.com"
           empty_directory (fst (fst run)) (snd (fst run)) (snd run) sample_user).
  - fold run. clearbody run. destruct run as [[? ?] ?]; reflexivity.
  - vm_compute. eexists _, _, _. split; [left; reflexivity|]. split; reflexivity.
  - vm_compute. eexists _, _, _, _. split; [right; right; left; reflexivity|]. reflexivity.
  - vm_compute. eexists _, _, _, _. do 4 right. left. reflexivity.
Defined.

(** C2. When the lookup reports an error or comes back without a record,
    [resetPasswordByEmail] resolves (it does not reject) to
    [{ success: false, message: "User not found" }]; the lookup is the
    only call made, so nothing is written and nothing is sent, and the
    directory is as before. *)
Theorem reset_user_not_found W this email st resp r st' tr :
  select_eq_single W (supabase this) email = Normal resp ->
  truthy (Postgrest.error resp) = true \/ Postgrest.data resp = None ->
  resetPasswordByEmail W this email st = (r, st', tr) ->
  r = Normal result_not_found /\
  writes tr = [] /\
  sends tr = [] /\
  tr = [EvSelect (supabase this) email (Normal resp)] /\
  st' = st.
Proof.
  intros Hsel Hnone Hrun.
  invert_run Hrun; absurd_event; repeat split; reflexivity.
Qed.

Lemma reset_user_not_found_witness :
  exists r st' tr,
    resetPasswordByEmail sample_world (sample_instance None) "nobody@example.com"
      empty_directory = (r, st', tr) /\
    r = Normal result_not_found /\ writes tr = [] /\ sends tr = [] /\
    tr = [EvSelect (supabase (sample_instance None)) "nobody@example.com"
            (select_eq_single sample_world (supabase (sample_instance None))
               "nobody@example.com")] /\
    st' = empty_directory.
Proof.
  run_sample run.
  eapply (reset_user_not_found sample_world (sample_instance None) "nobody@example.com"
            empty_directory).
  - vm_compute. reflexivity.
  - left. vm_compute. reflexivity.
  - fold run. clearbody run. destruct run as [[? ?] ?]; reflexivity.
Defined.

(** C3. When the account was found and the directory answers the write of
    the hash with an error, [resetPasswordByEmail] resolves to
    [{ success: false, message: "Failed to update password" }]; no
    notification is attempted, and the failed write is the only write of
    the run (no retry). *)
Theorem reset_write_failed W this email st r st' tr :
  resetPasswordByEmail W this email st = (r, st', tr) ->
  write_failed tr ->
  r = Normal result_update_failed /\
  sends tr = [] /\
  (exists user h, lookup_found tr user /\ writes tr = [(supabase this, id user, h)]) /\
  encrypted_password st' = encrypted_password st.
Proof.
  intros Hrun Hwrite.
  invert_run Hrun; absurd_event.
  split; [reflexivity|]. split; [reflexivity|]. split.
  - eexists _, _. split; [|reflexivity].
    eexists _, _, _. split; [left; reflexivity|]. split; eassumption.
  - apply after_generation_directory.
Qed.

Lemma reset_write_failed_witness :
  exists r st' tr,
    resetPasswordByEmail (with_update sample_world (Normal permission_denied))
      (sample_instance None) "user@example.com" empty_directory = (r, st', tr) /\
    r = Normal result_update_failed /\
    sends tr = [] /\
    (exists user h, lookup_found tr user /\
                    writes tr = [(supabase (sample_instance None), id user, h)]) /\
    encrypted_password st' = encrypted_password empty_directory.
Proof.
  run_sample run.
  apply (reset_write_failed (with_update sample_world (Normal permission_denied))
           (sample_instance None) "user@example.com" empty_directory).
  - fold run. clearbody run. destruct run as [[? ?] ?]; reflexivity.
  - vm_compute. eexists _, _, _, _. split; [right; right; left; reflexivity|]. reflexivity.
Defined.

(** C4. Failing input: the account is found, the write of the hash
    succeeds, and the send rejects with [undefined].  The catch block
    throws a TypeError while reading [error.message], so the
    promise rejects and no result of the shape [{ success: false,
    message: "An unexpected error occurred", error }] is returned; the
    directory holds the hash of the password that nobody was told. *)
Theorem send_rejects_with_undefined :
  exists st' tr,
    resetPasswordByEmail (with_send sample_world (Throw JsUndefined))
      (sample_instance None) "user@example.com" empty_directory
    = (Throw (js_TypeError "Cannot read properties of undefined (reading 'message')"),
       st', tr) /\
    write_succeeded tr /\
    send_threw tr JsUndefined /\
    encrypted_password st' !! "u1"
    = Some ("$2b$10$" +:+ generated sample_world (sample_instance None) empty_directory).
Proof.
  eexists _, _. split; [vm_compute; reflexivity|]. split; [|split].
  - eexists _, _, _, _. split; [right; right; left; reflexivity|]. reflexivity.
  - eexists _, _, _. do 4 right. left. reflexivity.
  - vm_compute. reflexivity.
Qed.

(** C5. Failing input: the directory lookup rejects with [null].  The
    error is caught, but the catch block then throws a TypeError while
    reading [error.message], so the promise returned to the caller
    rejects: the operation is not total. *)
Theorem lookup_rejects_with_null :
  resetPasswordByEmail (with_lookup sample_world (Throw JsNull))
    (sample_instance None) "user@example.com" empty_directory
  = (Throw (js_TypeError "Cannot read properties of null (reading 'message')"),
     empty_directory,
     [EvSelect (supabase (sample_instance None)) "user@example.com" (Throw JsNull);
      EvConsoleError "Error in resetPasswordByEmail:" JsNull]).
Proof. vm_compute. reflexivity. Qed.

(** C6. Construction throws the configuration error, before either
    client factory has been called and with nothing changed, exactly
    when one of the four required connection fields is absent or empty.
    With all four present it throws exactly when a client factory throws
    ([createClient], or the Mailgun client once [createClient] has
    returned), and then with that factory's error; so it succeeds as
    soon as both return.  When construction succeeds, no required field
    was missing and each effective option is the supplied one where
    [config.options] has it and the default otherwise: 10 salt rounds,
    length 10, "noreply@yourdomain.com", "Password Reset", "Your Password
    Has Been Reset", the default template. *)
Theorem constructor_contract W config st :
  ((exists e, constructor W config st = (Throw e, st, [])) <-> missing_required config) /\
  (missing_required config ->
   constructor W config st
   = (Throw (js_Error "Missing required configuration parameters"), st, [])) /\
  (~ missing_required config ->
   forall e,
     (exists st' tr, constructor W config st = (Throw e, st', tr)) <->
     (createClient_throws W (str (Config.supabaseUrl config))
                            (str (Config.supabaseKey config)) = Some e \/
      (createClient_throws W (str (Config.supabaseUrl config))
                             (str (Config.supabaseKey config)) = None /\
       mailgun_client_throws W "api" (str (Config.mailgunApiKey config)) = Some e))) /\
  (~ missing_required config ->
   createClient_throws W (str (Config.supabaseUrl config))
                         (str (Config.supabaseKey config)) = None ->
   mailgun_client_throws W "api" (str (Config.mailgunApiKey config)) = None ->
   exists this tr, constructor W config st = (Normal this, st, tr)) /\
  (forall this st' tr,
     constructor W config st = (Normal this, st', tr) ->
     ~ missing_required config /\
     options this = spread default_options (Config.options config) /\
     Options.saltRounds (options this)
       = default 10 (UserOptions.saltRounds (supplied config)) /\
     Options.passwordLength (options this)
       = default 10 (UserOptions.passwordLength (supplied config)) /\
     Options.fromEmail (options this)
       = default "noreply@yourdomain.com" (UserOptions.fromEmail (supplied config)) /\
     Options.fromName (options this)
       = default "Password Reset" (UserOptions.fromName (supplied config)) /\
     Options.subject (options this)
       = default "Your Password Has Been Reset" (UserOptions.subject (supplied config)) /\
     Options.emailTemplateFunction (options this)
       = default _defaultEmailTemplate
           (UserOptions.emailTemplateFunction (supplied config))).
Proof.
  split; [|split; [|split; [|split]]].
  - split.
    + intros [e He]. destruct (missing_required_dec config) as [Hmiss|Hok]; [exact Hmiss|].
      rewrite (constructor_complete W config st Hok) in He.
      destruct (createClient_throws W _ _); [discriminate He|].
      destruct (mailgun_client_throws W _ _); discriminate He.
    + intros Hmiss. eexists. apply constructor_missing, Hmiss.
  - apply constructor_missing.
  - intros Hok e. rewrite (constructor_complete W config st Hok).
    destruct (createClient_throws W _ _) as [e1|].
    + split.
      * intros (st' & tr & He). injection He as <- _ _. left. reflexivity.
      * intros [He|[He _]]; [|discriminate He]. injection He as <-.
        eexists _, _. reflexivity.
    + destruct (mailgun_client_throws W _ _) as [e2|].
      * split.
        -- intros (st' & tr & He). injection He as <- _ _. right. split; reflexivity.
        -- intros [He|[_ He]]; [discriminate He|]. injection He as <-.
           eexists _, _. reflexivity.
      * split.
        -- intros (st' & tr & He). discriminate He.
        -- intros [He|[_ He]]; discriminate He.
  - intros Hok Hsup Hmg. rewrite (constructor_complete W config st Hok), Hsup, Hmg.
    eexists _, _. reflexivity.
  - intros this st' tr Hc.
    destruct (constructor_options _ _ _ _ _ _ Hc) as [Hok Hopt].
    split; [exact Hok|]. split; [exact Hopt|].
    rewrite Hopt. apply spread_fields.
Qed.

Lemma constructor_contract_witness :
  ~ missing_required (sample_config None) /\
  exists this tr,
    constructor sample_world (sample_config None) empty_directory
    = (Normal this, empty_directory, tr).
Proof.
  assert (Hok : ~ missing_required (sample_config None)).
  { unfold missing_required, sample_config. simpl.
    rewrite !Exists_cons, Exists_nil. intros [[H|H]|[[H|H]|[[H|H]|[[H|H]|[]]]]]; discriminate H. }
  split; [exact Hok|].
  apply (constructor_contract sample_world (sample_config None) empty_directory);
    [exact Hok | reflexivity | reflexivity].
Defined.

(** C6 as stated fails when a client factory throws: with all four
    fields present and a URL that [createClient] refuses, the guard
    passes and construction throws the factory's error. *)
Lemma constructor_throws_with_fields_present :
  constructor strict_world (config_with_url "not a url") empty_directory
  = (Throw (js_Error "Invalid supabaseUrl: Must be a valid HTTP or HTTPS URL."),
     empty_directory,
     [EvCreateClient "not a url" "your-supabase-service-role-key"]) /\
  ~ missing_required (config_with_url "not a url") /\
  ~ ((exists e st' tr,
        constructor strict_world (config_with_url "not a url") empty_directory
        = (Throw e, st', tr))
     <-> missing_required (config_with_url "not a url")).
Proof.
  assert (Hok : ~ missing_required (config_with_url "not a url")).
  { unfold missing_required, config_with_url. simpl.
    rewrite !Exists_cons, Exists_nil.
    intros [[H|H]|[[H|H]|[[H|H]|[[H|H]|[]]]]]; discriminate H. }
  split; [reflexivity|]. split; [exact Hok|].
  intros [Hthrows _]. apply Hok, Hthrows. eexists _, _, _. reflexivity.
Qed.

(** C7. As the code has it: [_generateRandomPassword] always returns;
    the password has [max(0, passwordLength)] characters, so exactly
    [passwordLength] when that is not negative, all of them uppercase or
    lowercase letters, digits or one of the punctuation symbols; and it
    is this password that a run of [resetPasswordByEmail] hashes. *)
Theorem generated_password_shape W this st :
  random_in_unit_interval W ->
  _generateRandomPassword W this st
  = (Normal (generated W this st), after_generation W this st, []) /\
  String.length (generated W this st)
  = Z.to_nat (Z.max 0 (Options.passwordLength (options this))) /\
  (0 <= Options.passwordLength (options this) ->
   Z.of_nat (String.length (generated W this st)) = Options.passwordLength (options this)) /\
  Forall (fun c => in_alphabet c = true) (list_ascii_of_string (generated W this st)) /\
  (forall email r st' tr data rounds res,
     resetPasswordByEmail W this email st = (r, st', tr) ->
     In (EvHash data rounds res) tr ->
     data = generated W this st).
Proof.
  intros HW. destruct (generated_spec W this st HW) as [Hlen Hall].
  split; [apply generateRandomPassword_run|].
  split; [rewrite Hlen; lia|].
  split; [intros Hpos; rewrite Hlen; lia|].
  split; [exact Hall|].
  intros email r st' tr data rounds res Hrun Hin.
  apply (hashed_is_generated _ _ _ _ _ _ _ _ _ _ Hrun Hin).
Qed.

Lemma generated_password_shape_witness :
  String.length (generated sample_world (sample_instance None) empty_directory) = 10%nat /\
  Forall (fun c => in_alphabet c = true)
    (list_ascii_of_string (generated sample_world (sample_instance None) empty_directory)).
Proof.
  destruct (generated_password_shape sample_world (sample_instance None) empty_directory
              sample_world_random) as (_ & Hlen & _ & Hall & _).
  split; [exact Hlen | exact Hall].
Defined.

(** C7 as stated fails for a negative length: with
    [options: { passwordLength: -1 }] the loop body never runs, and the
    empty password has 0 characters, not -1. *)
Lemma generated_length_counterexample :
  constructor sample_world (sample_config (Some (only_passwordLength (-1)))) empty_directory
  = (Normal (instance_with_length (-1)), empty_directory,
     [EvCreateClient "https://your-project.supabase.co" "your-supabase-service-role-key";
      EvMailgunClient "api" "your-mailgun-api-key"]) /\
  random_in_unit_interval sample_world /\
  Options.passwordLength (options (instance_with_length (-1))) = -1 /\
  generated sample_world (instance_with_length (-1)) empty_directory = "" /\
  Z.of_nat (String.length (generated sample_world (instance_with_length (-1)) empty_directory))
  <> Options.passwordLength (options (instance_with_length (-1))).
Proof.
  split; [reflexivity|]. split; [exact sample_world_random|]. split; [reflexivity|].
  split; [vm_compute; reflexivity|]. vm_compute. discriminate.
Qed.

(** C8. Whenever a run reaches the notification step, the message handed
    to the sender has [from] equal to "{fromName} <{fromEmail}>", [to]
    equal to the input email, the configured subject, and as body exactly
    what [emailTemplateFunction] returned for the input email and the
    generated password (the one that was hashed); it goes through the
    instance's client and domain.  For an instance constructed with a
    template function of the user's, the body is that function's output. *)
Theorem notification_contents W this email st r st' tr c d m res :
  resetPasswordByEmail W this email st = (r, st', tr) ->
  In (EvSend c d m res) tr ->
  c = mailgun this /\ d = mailgunDomain this /\
  from m = Options.fromName (options this) +:+ " <"
           +:+ Options.fromEmail (options this) +:+ ">" /\
  to m = email /\
  subject m = Options.subject (options this) /\
  Options.emailTemplateFunction (options this) email (generated W this st)
  = Normal (text m) /\
  In (EvHash (generated W this st) (Options.saltRounds (options this))
        (bcrypt_hash W (generated W this st) (Options.saltRounds (options this)))) tr /\
  (forall config f st0 st1 tr0,
     constructor W config st0 = (Normal this, st1, tr0) ->
     UserOptions.emailTemplateFunction (supplied config) = Some f ->
     f email (generated W this st) = Normal (text m)).
Proof.
  intros Hrun Hin.
  assert (Hmain :
    c = mailgun this /\ d = mailgunDomain this /\ m = emailData this email (text m) /\
    Options.emailTemplateFunction (options this) email (generated W this st)
    = Normal (text m) /\
    In (EvHash (generated W this st) (Options.saltRounds (options this))
          (bcrypt_hash W (generated W this st) (Options.saltRounds (options this)))) tr).
  { invert_run Hrun; absurd_event;
      (repeat split; [assumption | right; left; congruence]). }
  destruct Hmain as (-> & -> & Hm & Htmpl & Hhash).
  repeat split; try assumption; try (rewrite Hm; reflexivity).
  intros config f st0 st1 tr0 Hc Hf.
  destruct (constructor_options _ _ _ _ _ _ Hc) as [_ Hopt].
  rewrite <- Htmpl, Hopt.
  destruct (spread_fields (Config.options config)) as (_ & _ & _ & _ & _ & Ht).
  rewrite Ht. fold (supplied config). rewrite Hf. reflexivity.
Qed.

Lemma notification_contents_witness :
  exists r st' tr,
    resetPasswordByEmail sample_world (sample_instance (Some (only_template custom_template)))
      "user@example.com" empty_directory = (r, st', tr) /\
    exists c d m res,
      In (EvSend c d m res) tr /\
      from m = "Password Reset <noreply@yourdomain.com>" /\
      to m = "user@example.com" /\
      subject m = "Your Password Has Been Reset" /\
      custom_template "user@example.com"
        (generated sample_world (sample_instance (Some (only_template custom_template)))
           empty_directory) = Normal (text m).
Proof.
  run_sample run.
  assert (Hsent : exists c d m res, In (EvSend c d m res) (snd run)).
  { vm_compute. eexists _, _, _, _. do 4 right. left. reflexivity. }
  destruct Hsent as (c & d & m & res & Hin).
  exists c, d, m, res. split; [exact Hin|].
  destruct (notification_contents sample_world
              (sample_instance (Some (only_template custom_template)))
              "user@example.com" empty_directory
              (fst (fst run)) (snd (fst run)) (snd run) c d m res)
    as (_ & _ & Hfrom & Hto & Hsubject & Hbody & _ & _).
  - fold run. clearbody run. destruct run as [[? ?] ?]; reflexivity.
  - exact Hin.
  - repeat split; assumption.
Defined.

(** C9. In every run, a value written to the directory's credential
    field is what the hash returned for the generated password, and so
    is any credential the directory holds afterwards that it did not
    hold before; for a hash that never returns its input, that value is
    not the plaintext.  The plaintext reaches nothing but the hash and
    the template function: a run with other random numbers, for which
    these two answer alike, has the same outcome, the same directory and
    the same calls once their plaintext argument is blanked. *)
Theorem only_hash_is_persisted W this email st r st' tr :
  resetPasswordByEmail W this email st = (r, st', tr) ->
  (forall c i v,
     In (c, i, v) (writes tr) ->
     bcrypt_hash W (generated W this st) (Options.saltRounds (options this)) = Normal v /\
     (hash_differs_from_input W -> v <> generated W this st)) /\
  (forall k v,
     encrypted_password st' !! k = Some v ->
     encrypted_password st !! k = Some v \/
     (bcrypt_hash W (generated W this st) (Options.saltRounds (options this)) = Normal v /\
      (hash_differs_from_input W -> v <> generated W this st))) /\
  (forall draws r2 st2 tr2,
     resetPasswordByEmail (with_random W draws) this email st = (r2, st2, tr2) ->
     bcrypt_hash W (generated (with_random W draws) this st)
       (Options.saltRounds (options this))
     = bcrypt_hash W (generated W this st) (Options.saltRounds (options this)) ->
     Options.emailTemplateFunction (options this) email
       (generated (with_random W draws) this st)
     = Options.emailTemplateFunction (options this) email (generated W this st) ->
     r2 = r /\ encrypted_password st2 = encrypted_password st' /\
     map redact tr2 = map redact tr).
Proof.
  intros Hrun. split; [|split].
  - intros c i v Hin.
    pose proof (written_is_hash _ _ _ _ _ _ _ _ _ _ Hrun Hin) as Hv.
    split; [exact Hv|]. intros Hhash. exact (Hhash _ _ _ Hv).
  - intros k v Hk.
    destruct (directory_after_run _ _ _ _ _ _ _ _ _ Hrun Hk) as [Hold|Hv]; [left; exact Hold|].
    right. split; [exact Hv|]. intros Hhash. exact (Hhash _ _ _ Hv).
  - intros draws r2 st2 tr2 Hrun2 Hhash Htmpl.
    exact (plaintext_flows_to_hash_and_template _ _ _ _ _ _ _ _ _ _ _ Hrun Hrun2 Hhash Htmpl).
Qed.

Lemma only_hash_is_persisted_witness :
  exists r st' tr,
    resetPasswordByEmail sample_world (sample_instance None) "user@example.com"
      empty_directory = (r, st', tr) /\
    (forall c i v,
       In (c, i, v) (writes tr) ->
       v <> generated sample_world (sample_instance None) empty_directory) /\
    (forall v,
       encrypted_password st' !! "u1" = Some v ->
       v <> generated sample_world (sample_instance None) empty_directory).
Proof.
  destruct (resetPasswordByEmail sample_world (sample_instance None) "user@example.com"
              empty_directory) as [[r st'] tr] eqn:Hrun.
  exists r, st', tr. split; [reflexivity|].
  destruct (only_hash_is_persisted sample_world (sample_instance None) "user@example.com"
              empty_directory r st' tr Hrun) as (Hwrites & Hdir & _).
  split.
  - intros c i v Hin. apply (Hwrites c i v Hin), sample_hash_differs.
  - intros v Hv. destruct (Hdir "u1" v Hv) as [Hold|[_ Hne]].
    + unfold empty_directory in Hold. simpl in Hold. rewrite lookup_empty in Hold. discriminate Hold.
    + apply Hne, sample_hash_differs.
Defined.

(** C10. Nothing validates [passwordLength]: a configuration whose
    [passwordLength] is zero or negative constructs, with that length as
    the effective option; [_generateRandomPassword] then returns the
    empty string; and when the lookup finds the account and the hash,
    the write, the template and the send all succeed,
    [resetPasswordByEmail] hashes the empty password, writes the hash,
    mails the template's text for the empty password, and reports
    success. *)
Theorem nonpositive_length_not_validated W config st0 this st tr0 n :
  constructor W config st0 = (Normal this, st, tr0) ->
  UserOptions.passwordLength (supplied config) = Some n ->
  n <= 0 ->
  Options.passwordLength (options this) = n /\
  _generateRandomPassword W this st = (Normal "", st, []) /\
  (forall email resp user h resp' body u,
     select_eq_single W (supabase this) email = Normal resp ->
     found resp user ->
     bcrypt_hash W "" (Options.saltRounds (options this)) = Normal h ->
     update_eq W (supabase this) (id user) h = Normal resp' ->
     truthy (Postgrest.error resp') = false ->
     Options.emailTemplateFunction (options this) email "" = Normal body ->
     messages_create W (mailgun this) (mailgunDomain this) (emailData this email body)
     = Normal u ->
     resetPasswordByEmail W this email st
     = (Normal result_success, stored (id user) h st,
        [EvSelect (supabase this) email (Normal resp);
         EvHash "" (Options.saltRounds (options this)) (Normal h);
         EvUpdate (supabase this) (id user) h (Normal resp');
         EvTemplate email "" (Normal body);
         EvSend (mailgun this) (mailgunDomain this) (emailData this email body)
           (Normal u)])).
Proof.
  intros Hc Hn Hle.
  destruct (constructor_options _ _ _ _ _ _ Hc) as [_ Hopt].
  assert (HL : Options.passwordLength (options this) = n).
  { rewrite Hopt.
    destruct (spread_fields (Config.options config)) as (_ & HL & _).
    rewrite HL. fold (supplied config). rewrite Hn. reflexivity. }
  assert (Hgen : generated W this st = "" /\ after_generation W this st = st)
    by (apply generated_nonpositive; lia).
  destruct Hgen as [Hpw Hst].
  split; [exact HL|]. split.
  - rewrite generateRandomPassword_run, Hpw, Hst. reflexivity.
  - intros email resp user h resp' body u Hsel Hfound Hh Hu Herr Ht Hs.
    destruct (resetPasswordByEmail W this email st) as [[r st'] tr] eqn:Hrun.
    apply reset_path in Hrun.
    inversion Hrun; subst; clear Hrun; unfold found in *;
      rewrite ?Hpw, ?Hst in *; absurd_event; reflexivity.
Qed.

Lemma nonpositive_length_not_validated_witness :
  Options.passwordLength (options (instance_with_length (-5))) = -5 /\
  _generateRandomPassword sample_world (instance_with_length (-5)) empty_directory
  = (Normal "", empty_directory, []) /\
  resetPasswordByEmail sample_world (instance_with_length (-5)) "user@example.com"
    empty_directory
  = (Normal result_success, stored "u1" "$2b$10$" empty_directory,
     [EvSelect (supabase (instance_with_length (-5))) "user@example.com"
        (Normal {| Postgrest.data := Some sample_user; Postgrest.error := JsNull |});
      EvHash "" 10 (Normal "$2b$10$");
      EvUpdate (supabase (instance_with_length (-5))) "u1" "$2b$10$" (Normal no_error);
      EvTemplate "user@example.com" "" (_defaultEmailTemplate "user@example.com" "");
      EvSend (mailgun (instance_with_length (-5))) (mailgunDomain (instance_with_length (-5)))
        (emailData (instance_with_length (-5)) "user@example.com"
           ("Hello," +:+ nl +:+ nl
            +:+ "Your password has been reset. Your new temporary password is: "
            +:+ nl +:+ nl
            +:+ "Please login with this password and change it immediately for security reasons."
            +:+ nl +:+ nl
            +:+ "This is an automated message, please do not reply."))
        (Normal tt)]).
Proof.
  destruct (nonpositive_length_not_validated sample_world
              (sample_config (Some (only_passwordLength (-5)))) empty_directory
              (instance_with_length (-5)) empty_directory _ (-5)
              (sample_instance_constructed _) eq_refl ltac:(lia))
    as (Hlen & Hgen & Hrun).
  split; [exact Hlen|]. split; [exact Hgen|].
  apply (Hrun "user@example.com"
           {| Postgrest.data := Some sample_user; Postgrest.error := JsNull |}
           sample_user "$2b$10$" no_error _ tt);
    try reflexivity.
  split; reflexivity.
Defined.

(** * Beyond the claims *)

(** ** The generation loop in closed form *)

Lemma generate_loop_picks W this i password st :
  fst (generate_loop W this i password st)
  = password +:+ picks W (random_calls st)
                   (Z.to_nat (Options.passwordLength (options this) - i)) /\
  random_calls (snd (generate_loop W this i password st))
  = (random_calls st + Z.to_nat (Options.passwordLength (options this) - i))%nat.
Proof.
  funelim (generate_loop W this i password st).
  - destruct H as [Hfst Hcalls]. rewrite Hfst, Hcalls. simpl random_calls.
    replace (Z.to_nat (Options.passwordLength (options this) - i))
      with (S (Z.to_nat (Options.passwordLength (options this) - (i + 1)))) by lia.
    simpl picks. rewrite append_assoc. split; [reflexivity | lia].
  - rewrite Z2Nat.nonpos by lia. simpl. rewrite append_empty_r. split; [reflexivity | lia].
Qed.

(** X1. The generated password is the concatenation, in order, of the
    characters picked for the next [max(0, passwordLength)] results of
    [Math.random()], and the generation consumes exactly these: a second
    generation continues with the draws that follow. *)
Theorem generated_is_picks W this st :
  generated W this st
  = picks W (random_calls st) (Z.to_nat (Options.passwordLength (options this))) /\
  random_calls (after_generation W this st)
  = (random_calls st + Z.to_nat (Options.passwordLength (options this)))%nat /\
  generated W this (after_generation W this st)
  = picks W (random_calls st + Z.to_nat (Options.passwordLength (options this)))
      (Z.to_nat (Options.passwordLength (options this))).
Proof.
  assert (Hone : forall s,
    generated W this s
    = picks W (random_calls s) (Z.to_nat (Options.passwordLength (options this))) /\
    random_calls (after_generation W this s)
    = (random_calls s + Z.to_nat (Options.passwordLength (options this)))%nat).
  { intros s. unfold generated, after_generation.
    destruct (generate_loop_picks W this 0 "" s) as [Hfst Hcalls].
    rewrite Z.sub_0_r in Hfst, Hcalls. rewrite Hfst, Hcalls. split; reflexivity. }
  destruct (Hone st) as [Hpw Hcalls].
  split; [exact Hpw|]. split; [exact Hcalls|].
  destruct (Hone (after_generation W this st)) as [Hpw2 _].
  rewrite Hpw2, Hcalls. reflexivity.
Qed.

(** ** Which character a draw picks *)

(** Rounding does not cross a number that is itself representable at the
    precision of the rounded number. *)
Lemma round_binary64_lattice (n c : Z) :
  0 <= n ->
  (c * 2 ^ Z.max 0 (Z.log2 n - 52) <= n -> c * 2 ^ Z.max 0 (Z.log2 n - 52) <= round_binary64 n) /\
  (n <= c * 2 ^ Z.max 0 (Z.log2 n - 52) -> round_binary64 n <= c * 2 ^ Z.max 0 (Z.log2 n - 52)).
Proof.
  intros Hn. unfold round_binary64.
  set (s := Z.max 0 (Z.log2 n - 52)).
  destruct (s =? 0) eqn:Hs; [split; intros H; exact H|].
  apply Z.eqb_neq in Hs. assert (Hs0 : 0 < s) by lia.
  rewrite Z.shiftl_mul_pow2, Z.shiftr_div_pow2, Z.land_ones by lia.
  rewrite Z.shiftl_mul_pow2 by lia. rewrite Z.mul_1_l.
  assert (Hpow : 2 ^ s = 2 * 2 ^ (s - 1)).
  { rewrite <- Z.pow_succ_r by lia. f_equal. lia. }
  assert (Hh : 0 < 2 ^ (s - 1)) by (apply Z.pow_pos_nonneg; lia).
  pose proof (Z.div_mod n (2 ^ s) ltac:(lia)) as Hdm.
  pose proof (Z.mod_pos_bound n (2 ^ s) ltac:(lia)) as Hr.
  remember (2 ^ (s - 1)) as h. remember (n / 2 ^ s) as q. remember (n mod 2 ^ s) as r.
  rewrite Hpow in *.
  split; intros Hc.
  - assert (c <= q) by nia. destruct (_ || _); nia.
  - destruct ((h <? r) || ((h =? r) && Z.odd q)) eqn:Hup; [|nia].
    assert (h <= r).
    { apply orb_prop in Hup as [Hup|Hup].
      - apply Z.ltb_lt in Hup. lia.
      - apply andb_prop in Hup as [Hup _]. apply Z.eqb_eq in Hup. lia. }
    assert (q < c) by nia. nia.
Qed.

Lemma product_exponent (k : Z) :
  0 <= k < unit_scale -> 0 <= Z.max 0 (Z.log2 (k * 72) - 52) <= 1028.
Proof.
  intros [Hk0 Hk1]. split; [lia|].
  destruct (Z.eq_dec (k * 72) 0) as [Hz|Hnz]; [rewrite Hz; simpl; lia|].
  assert (Z.log2 (k * 72) < 1081); [|lia].
  apply Z.log2_lt_pow2; [lia|].
  replace (2 ^ 1081) with (128 * unit_scale); [lia|].
  unfold unit_scale. change 128 with (2 ^ 7). rewrite <- Z.pow_add_r by lia. reflexivity.
Qed.

(** X2. For a draw [x] in [0, 1), the index computed by
    [Math.floor(x * chars.length)] is the exact [floor(72 x)], except
    that a product within 2^-47 below an integer may round up to it; the
    index never leaves [0, 71]. *)
Theorem pick_index (k : Z) :
  is_random_double k = true ->
  let exact := (72 * k) / unit_scale in
  let index := Math_floor (Number_times k (Z.of_nat (String.length chars))) in
  0 <= exact <= 71 /\
  0 <= index <= 71 /\
  (index = exact \/
   (index = exact + 1 /\ (exact + 1) * unit_scale - 72 * k <= 2 ^ 1027)).
Proof.
  intros Hk. change (Z.of_nat (String.length chars)) with 72. cbv zeta.
  pose proof (floor_times_in_range k Hk) as Hidx.
  apply random_double_le in Hk as Hk'. destruct Hk' as [Hk0 Hk1].
  assert (HU : 0 < unit_scale) by (unfold unit_scale; apply Z.pow_pos_nonneg; lia).
  assert (H21 : 0 < 2 ^ 1021) by (apply Z.pow_pos_nonneg; lia).
  assert (Hkk : 0 <= k < unit_scale) by lia.
  pose proof (product_exponent k Hkk) as Hs.
  unfold Math_floor, Number_times in *.
  set (n := k * 72) in *. set (s := Z.max 0 (Z.log2 n - 52)) in *.
  replace (72 * k) with n by (unfold n; lia).
  assert (Hn : 0 <= n) by (unfold n; lia).
  set (i := n / unit_scale).
  pose proof (Z.div_mod n unit_scale ltac:(lia)) as Hdm.
  pose proof (Z.mod_pos_bound n unit_scale HU) as Hr.
  fold i in Hdm.
  assert (Hi : 0 <= i <= 71).
  { split; [apply Z.div_pos; lia|].
    assert (i < 72); [|lia]. apply Z.div_lt_upper_bound; [lia|]. unfold n. lia. }
  assert (Hsplit : unit_scale = 2 ^ (1074 - s) * 2 ^ s).
  { unfold unit_scale. rewrite <- Z.pow_add_r by lia. f_equal. lia. }
  destruct (round_binary64_lattice n (i * 2 ^ (1074 - s)) Hn) as [Hlow _].
  destruct (round_binary64_lattice n ((i + 1) * 2 ^ (1074 - s)) Hn) as [_ Hhigh].
  fold s in Hlow, Hhigh.
  rewrite <- Z.mul_assoc, <- Hsplit in Hlow, Hhigh.
  specialize (Hlow ltac:(lia)). specialize (Hhigh ltac:(lia)).
  pose proof (round_binary64_upper n Hn) as Hup. fold s in Hup.
  assert (Hhalf : 2 ^ (s - 1) <= 2 ^ 1027).
  { destruct (Z.eq_dec s 0) as [->|Hnz].
    - rewrite Z.pow_neg_r by lia. apply Z.pow_nonneg. lia.
    - apply Z.pow_le_mono_r; lia. }
  remember (round_binary64 n) as R. remember (2 ^ (s - 1)) as h.
  remember (2 ^ 1027) as H27.
  split; [exact Hi|]. split; [lia|].
  destruct (Z_lt_dec R ((i + 1) * unit_scale)) as [Hlt|Hge].
  - left. symmetry. apply Z.div_unique with (r := R - i * unit_scale); lia.
  - right. assert (R = (i + 1) * unit_scale) by lia. subst R. split.
    + rewrite H. apply Z.div_mul. lia.
    + lia.
Qed.

Lemma pick_index_witness :
  is_random_double (2 ^ 1073) = true /\
  (let exact := (72 * 2 ^ 1073) / unit_scale in
   let index := Math_floor (Number_times (2 ^ 1073) (Z.of_nat (String.length chars))) in
   0 <= exact <= 71 /\
   0 <= index <= 71 /\
   (index = exact \/
    (index = exact + 1 /\ (exact + 1) * unit_scale - 72 * 2 ^ 1073 <= 2 ^ 1027))).
Proof.
  assert (H : is_random_double (2 ^ 1073) = true) by (vm_compute; reflexivity).
  split; [exact H | exact (pick_index (2 ^ 1073) H)].
Defined.

(** The exception is real: the largest draw below 1/72 already picks the
    second character, in this model and in the Standard Library's
    binary64 multiplication alike. *)
Example pick_rounds_up :
  is_random_double just_below_one_72th = true /\
  (72 * just_below_one_72th) / unit_scale = 0 /\
  Math_floor (Number_times just_below_one_72th 72) = 1 /\
  agrees_with_SFmul just_below_one_72th = true /\
  pick just_below_one_72th = "b".
Proof. vm_compute. repeat split; reflexivity. Qed.

(** ** The alphabet *)

Lemma in_alphabet_chars (c : ascii) :
  in_alphabet c = existsb (Ascii.eqb c) (list_ascii_of_string chars).
Proof.
  destruct c as [[] [] [] [] [] [] [] []]; vm_compute; reflexivity.
Qed.

(** X3. [chars] holds exactly the uppercase letters, the lowercase
    letters, the digits and the ten symbols, each once (72 characters);
    and each of them is picked for some result of [Math.random()]. *)
Theorem alphabet_covered :
  (forall c, in_alphabet c = true <-> In c (list_ascii_of_string chars)) /\
  NoDup (list_ascii_of_string chars) /\
  String.length chars = 72%nat /\
  (forall c, In c (list_ascii_of_string chars) ->
     exists k, is_random_double k = true /\ pick k = String c "").
Proof.
  split; [|split; [|split]].
  - intros c. rewrite in_alphabet_chars, existsb_exists. split.
    + intros (x & Hx & Heq). apply Ascii.eqb_eq in Heq. subst x. exact Hx.
    + intros Hc. exists c. split; [exact Hc | apply Ascii.eqb_refl].
  - apply (bool_decide_unpack _). vm_compute. reflexivity.
  - reflexivity.
  - intros c Hc.
    assert (Hall : forallb (fun i =>
              is_random_double (draw_for i)
              && match nth_error (list_ascii_of_string chars) i with
                 | Some c' => String.eqb (pick (draw_for i)) (String c' "")
                 | None => false
                 end) (seq 0 72) = true) by (vm_compute; reflexivity).
    rewrite forallb_forall in Hall.
    apply In_nth_error in Hc as [i Hi].
    assert (Hlt : (i < 72)%nat).
    { assert (Hsome : nth_error (list_ascii_of_string chars) i <> None) by congruence.
      apply nth_error_Some in Hsome. exact Hsome. }
    specialize (Hall i ltac:(apply in_seq; lia)).
    apply andb_prop in Hall as [Hdraw Hpick]. rewrite Hi in Hpick.
    apply String.eqb_eq in Hpick. exists (draw_for i). split; assumption.
Qed.

(** ** More about a run of [resetPasswordByEmail] *)

Lemma caught_success e res : caught e = Normal res -> success res = false.
Proof.
  unfold caught. destruct (get_message e); intros H; [|discriminate H].
  injection H as <-. reflexivity.
Qed.

Lemma success_true_is_success W this email st st' tr res :
  resetPasswordByEmail W this email st = (Normal res, st', tr) ->
  success res = true ->
  res = result_success.
Proof.
  intros Hrun Hsuccess.
  invert_run Hrun;
    try match goal with
        | H : caught _ = Normal _ |- _ => apply caught_success in H; congruence
        end;
    try discriminate Hsuccess.
  reflexivity.
Qed.

(** X4. Success is reported only for a run that found the account, hashed
    the generated password, had the hash accepted by the directory and
    had the notification accepted by the sender: a result with
    [success: true] is the success object, and the directory then holds
    that hash under the account's id. *)
Theorem success_only_if W this email st st' tr res :
  resetPasswordByEmail W this email st = (Normal res, st', tr) ->
  success res = true ->
  res = result_success /\
  write_succeeded tr /\
  send_succeeded tr /\
  exists user h,
    lookup_found tr user /\
    bcrypt_hash W (generated W this st) (Options.saltRounds (options this)) = Normal h /\
    encrypted_password st' !! id user = Some h.
Proof.
  intros Hrun Hsuccess.
  invert_run Hrun;
    try match goal with
        | H : caught _ = Normal _ |- _ => apply caught_success in H; congruence
        end;
    try discriminate Hsuccess.
  split; [reflexivity|]. split; [|split].
  - eexists _, _, _, _. split; [right; right; left; reflexivity | assumption].
  - eexists _, _, _, _. do 4 right. left. reflexivity.
  - match goal with H : _ /\ _ |- _ => destruct H as [Herr Hdata] end.
    eexists _, _. split; [|split; [eassumption|]].
    + eexists _, _, _. split; [left; reflexivity|]. split; eassumption.
    + apply lookup_insert_eq.
Qed.

Lemma success_only_if_witness :
  exists st' tr,
    resetPasswordByEmail sample_world (sample_instance None) "user@example.com"
      empty_directory = (Normal result_success, st', tr) /\
    write_succeeded tr /\
    send_succeeded tr /\
    exists user h,
      lookup_found tr user /\
      bcrypt_hash sample_world
        (generated sample_world (sample_instance None) empty_directory)
        (Options.saltRounds (options (sample_instance None))) = Normal h /\
      encrypted_password st' !! id user = Some h.
Proof.
  set (run := resetPasswordByEmail sample_world (sample_instance None)
                "user@example.com" empty_directory).
  assert (Hrun : run = (Normal result_success, snd (fst run), snd run)).
  { assert (Hr : fst (fst run) = Normal result_success) by (vm_compute; reflexivity).
    clearbody run. destruct run as [[r s] t]. simpl in *. rewrite Hr. reflexivity. }
  exists (snd (fst run)), (snd run). split; [exact Hrun|].
  apply (success_only_if sample_world (sample_instance None) "user@example.com"
           empty_directory (snd (fst run)) (snd run) result_success Hrun eq_refl).
Defined.

(** X5. A run touches at most one row of the directory: without a
    successful write the directory is as before, and with one every row
    other than the account's is as before. *)
Theorem directory_frame W this email st r st' tr :
  resetPasswordByEmail W this email st = (r, st', tr) ->
  (~ write_succeeded tr -> encrypted_password st' = encrypted_password st) /\
  (forall user k,
     lookup_found tr user -> k <> id user ->
     encrypted_password st' !! k = encrypted_password st !! k).
Proof.
  intros Hrun. split.
  - intros Hnone.
    invert_run Hrun; rewrite ?after_generation_directory; try reflexivity;
      (exfalso; apply Hnone; eexists _, _, _, _;
       split; [right; right; left; reflexivity | assumption]).
  - intros user k Hfound Hk.
    invert_run Hrun; absurd_event;
      rewrite ?lookup_insert_ne by congruence;
      rewrite ?after_generation_directory; reflexivity.
Qed.

Lemma directory_frame_witness :
  exists r st' tr,
    resetPasswordByEmail sample_world (sample_instance None) "user@example.com"
      (stored "u2" "$2b$10$other" empty_directory) = (r, st', tr) /\
    encrypted_password st' !! "u2" = Some "$2b$10$other".
Proof.
  run_sample run.
  destruct (directory_frame sample_world (sample_instance None) "user@example.com"
              (stored "u2" "$2b$10$other" empty_directory)
              (fst (fst run)) (snd (fst run)) (snd run)) as [_ Hframe].
  - fold run. clearbody run. destruct run as [[? ?] ?]; reflexivity.
  - rewrite (Hframe sample_user "u2").
    + apply lookup_insert_eq.
    + vm_compute. eexists _, _, _. split; [left; reflexivity|]. split; reflexivity.
    + discriminate.
Defined.

(** X6. The calls of a run come in one fixed order, each at most once:
    lookup, hash, write, template, send; the run may stop after any of
    them, and a [console.error], if there is one, is the last thing it
    does. *)
Theorem call_order W this email st :
  exists n b,
    (1 <= n)%nat /\
    map kind (snd (resetPasswordByEmail W this email st))
    = take n [KLookup; KHash; KWrite; KTemplate; KSend]
      ++ (if b : bool then [KConsole] else []).
Proof.
  destruct (resetPasswordByEmail W this email st) as [[r st'] tr] eqn:Hrun.
  invert_run Hrun.
  - exists 1%nat, true. split; [lia | reflexivity].
  - exists 1%nat, false. split; [lia | reflexivity].
  - exists 2%nat, true. split; [lia | reflexivity].
  - exists 3%nat, true. split; [lia | reflexivity].
  - exists 3%nat, true. split; [lia | reflexivity].
  - exists 4%nat, true. split; [lia | reflexivity].
  - exists 5%nat, true. split; [lia | reflexivity].
  - exists 5%nat, false. split; [lia | reflexivity].
Qed.

(** X7. Nothing is mailed unless the directory accepted the hash, and
    nothing is written unless the lookup found the account: a send in
    the trace comes with a successful write, and a write with a found
    record whose id it addresses. *)
Theorem send_needs_write W this email st r st' tr :
  resetPasswordByEmail W this email st = (r, st', tr) ->
  (forall c d m res, In (EvSend c d m res) tr -> write_succeeded tr) /\
  (forall c i h res,
     In (EvUpdate c i h res) tr ->
     exists user, lookup_found tr user /\ i = id user /\ c = supabase this).
Proof.
  intros Hrun. split.
  - intros c d m res Hin.
    invert_run Hrun; absurd_event;
      (eexists _, _, _, _; split; [right; right; left; reflexivity | assumption]).
  - intros c i h res Hin.
    invert_run Hrun; absurd_event;
      (eexists; split; [|split; reflexivity];
       eexists _, _, _; split; [left; reflexivity|]; split; assumption).
Qed.

Lemma send_needs_write_witness :
  exists r st' tr,
    resetPasswordByEmail (with_send sample_world (Throw (js_Error "Forbidden")))
      (sample_instance None) "user@example.com" empty_directory = (r, st', tr) /\
    write_succeeded tr.
Proof.
  run_sample run.
  destruct (send_needs_write (with_send sample_world (Throw (js_Error "Forbidden")))
              (sample_instance None) "user@example.com" empty_directory
              (fst (fst run)) (snd (fst run)) (snd run)) as [Hsend _].
  - fold run. clearbody run. destruct run as [[? ?] ?]; reflexivity.
  - assert (Hin : exists c d m res, In (EvSend c d m res) (snd run)).
    { vm_compute. eexists _, _, _, _. do 4 right. left. reflexivity. }
    destruct Hin as (c & d & m & res & Hin). exact (Hsend c d m res Hin).
Defined.

(** X8. At most one call of a run throws.  When none does, the run
    resolves to one of its three own results; when a call throws [e],
    the run stops there, logs [e] with [console.error] as its last act,
    and, [e] being neither [undefined] nor [null], resolves to
    [{ success: false, message: "An unexpected error occurred", error:
    e.message }], where a value without a [message] gives [undefined]. *)
Theorem thrown_value_is_reported W this email st r st' tr :
  resetPasswordByEmail W this email st = (r, st', tr) ->
  (omap thrown_by tr = [] /\
   (r = Normal result_not_found \/ r = Normal result_update_failed \/
    r = Normal result_success)) \/
  (exists e,
     omap thrown_by tr = [e] /\
     last tr = Some (EvConsoleError "Error in resetPasswordByEmail:" e) /\
     r = caught e /\
     (nullish e = false ->
      r = Normal (result_unexpected
                    match e with
                    | JsObject props => own_property "message" props
                    | _ => JsUndefined
                    end))).
Proof.
  intros Hrun.
  invert_run Hrun;
    first [ left; split; [reflexivity | tauto]
          | right; eexists; split; [reflexivity|]; split; [reflexivity|];
            split; [reflexivity|]; apply caught_nullish ].
Qed.

Lemma thrown_value_is_reported_witness :
  exists r st' tr,
    resetPasswordByEmail (with_lookup sample_world (Throw (js_Error "fetch failed")))
      (sample_instance None) "user@example.com" empty_directory = (r, st', tr) /\
    r = Normal (result_unexpected (JsString "fetch failed")).
Proof.
  run_sample run.
  destruct (thrown_value_is_reported
              (with_lookup sample_world (Throw (js_Error "fetch failed")))
              (sample_instance None) "user@example.com" empty_directory
              (fst (fst run)) (snd (fst run)) (snd run))
    as [[Hnone _]|(e & Hthrown & _ & _ & Hres)].
  - fold run. clearbody run. destruct run as [[? ?] ?]; reflexivity.
  - exfalso. revert Hnone. vm_compute. discriminate.
  - assert (He : e = js_Error "fetch failed").
    { revert Hthrown. vm_compute. intros H. injection H as H. symmetry. exact H. }
    subst e. apply Hres. reflexivity.
Defined.

(** X19. The asymmetry of a failed send.  When the write of the hash
    went through and the send throws or rejects with [e], the directory
    holds the hash of the generated password under the account's id,
    whatever [e] is: the write is the only write of the run and nothing
    rolls it back.  The outcome is that of the catch block: for [e]
    other than [undefined] and [null] the run resolves to
    [{ success: false, message: "An unexpected error occurred", error:
    e.message }], and for [undefined] or [null] it rejects with a
    TypeError. *)
Theorem send_failure_keeps_hash W this email st r st' tr user e :
  resetPasswordByEmail W this email st = (r, st', tr) ->
  lookup_found tr user ->
  write_succeeded tr ->
  send_threw tr e ->
  (exists h,
     bcrypt_hash W (generated W this st) (Options.saltRounds (options this)) = Normal h /\
     writes tr = [(supabase this, id user, h)] /\
     encrypted_password st' !! id user = Some h) /\
  (nullish e = false ->
   r = Normal (result_unexpected
                 match e with
                 | JsObject props => own_property "message" props
                 | _ => JsUndefined
                 end)) /\
  (nullish e = true -> exists text, r = Throw (js_TypeError text)).
Proof.
  intros Hrun Hlookup Hwrite Hsend.
  invert_run Hrun; absurd_event.
  split; [|split].
  - eexists. split; [eassumption|]. split; [reflexivity|]. apply lookup_insert_eq.
  - apply caught_nullish.
  - intros Hnull.
    match goal with
    | |- context [caught ?x] =>
        destruct x; try discriminate Hnull; eexists; reflexivity
    end.
Qed.

Lemma send_failure_keeps_hash_witness :
  exists r st' tr,
    resetPasswordByEmail (with_send sample_world (Throw (js_Error "Forbidden")))
      (sample_instance None) "user@example.com" empty_directory = (r, st', tr) /\
    r = Normal (result_unexpected (JsString "Forbidden")) /\
    writes tr
    = [(supabase (sample_instance None), "u1",
        "$2b$10$" +:+ generated sample_world (sample_instance None) empty_directory)] /\
    encrypted_password st' !! "u1"
    = Some ("$2b$10$" +:+ generated sample_world (sample_instance None) empty_directory).
Proof.
  run_sample run.
  destruct (send_failure_keeps_hash
              (with_send sample_world (Throw (js_Error "Forbidden")))
              (sample_instance None) "user@example.com" empty_directory
              (fst (fst run)) (snd (fst run)) (snd run) sample_user (js_Error "Forbidden"))
    as ((h & Hhash & Hwrites & Hstored) & Hresult & _).
  - fold run. clearbody run. destruct run as [[? ?] ?]; reflexivity.
  - vm_compute. eexists _, _, _. split; [left; reflexivity|]. split; reflexivity.
  - vm_compute. eexists _, _, _, _. split; [right; right; left; reflexivity|]. reflexivity.
  - vm_compute. eexists _, _, _. do 4 right. left. reflexivity.
  - assert (Hh : h = "$2b$10$" +:+ generated sample_world (sample_instance None)
                                    empty_directory).
    { injection Hhash as <-. reflexivity. }
    subst h. split; [exact (Hresult eq_refl)|]. split; [exact Hwrites | exact Hstored].
Defined.

(** X9. The hash is computed with the configured cost: for an instance
    built by the constructor, every call of [bcrypt.hash] in a run
    carries the [saltRounds] of [config.options], or 10 when none was
    supplied, and hashes the generated password. *)
Theorem hash_cost W config st0 this st1 tr0 email st r st' tr data rounds res :
  constructor W config st0 = (Normal this, st1, tr0) ->
  resetPasswordByEmail W this email st = (r, st', tr) ->
  In (EvHash data rounds res) tr ->
  rounds = default 10 (UserOptions.saltRounds (supplied config)) /\
  data = generated W this st.
Proof.
  intros Hc Hrun Hin.
  destruct (hashed_is_generated _ _ _ _ _ _ _ _ _ _ Hrun Hin) as (Hdata & Hrounds & _).
  split; [|exact Hdata].
  destruct (constructor_options _ _ _ _ _ _ Hc) as [_ Hopt].
  rewrite Hrounds, Hopt.
  destruct (spread_fields (Config.options config)) as (Hs & _). exact Hs.
Qed.

Lemma hash_cost_witness :
  exists r st' tr,
    resetPasswordByEmail sample_world (sample_instance None) "user@example.com"
      empty_directory = (r, st', tr) /\
    exists data res, In (EvHash data 10 res) tr.
Proof.
  run_sample run.
  assert (Hin : exists data rounds res, In (EvHash data rounds res) (snd run)).
  { vm_compute. eexists _, _, _. right. left. reflexivity. }
  destruct Hin as (data & rounds & res & Hin).
  destruct (hash_cost sample_world (sample_config None) empty_directory
              (sample_instance None) empty_directory _ "user@example.com"
              empty_directory (fst (fst run)) (snd (fst run)) (snd run) data rounds res
              (sample_instance_constructed None)) as [Hrounds _].
  - fold run. clearbody run. destruct run as [[? ?] ?]; reflexivity.
  - exact Hin.
  - exists data, res. simpl in Hrounds. rewrite <- Hrounds. exact Hin.
Defined.

(** ** The default template *)

Lemma append_inj_r (s1 s2 t : string) : s1 +:+ t = s2 +:+ t -> s1 = s2.
Proof.
  revert s2. induction s1 as [|c s1 IH]; intros [|c2 s2] H.
  - reflexivity.
  - apply (f_equal String.length) in H. rewrite append_cons in H. simpl in H.
    rewrite !length_append in H. simpl in H. lia.
  - apply (f_equal String.length) in H. rewrite append_cons in H. simpl in H.
    rewrite !length_append in H. simpl in H. lia.
  - rewrite !append_cons in H. injection H as -> H. f_equal. apply IH, H.
Qed.

Lemma default_template_text email password :
  _defaultEmailTemplate email password
  = Normal (template_prefix +:+ password +:+ template_suffix).
Proof. reflexivity. Qed.

(** X10. The default template never throws, does not use the email, and
    puts the password, unchanged, between two fixed texts, so that the
    body determines the password; with it, the text of every mail a run
    sends is these texts around the password whose hash was computed. *)
Theorem default_template_carries_password :
  (forall email password,
     _defaultEmailTemplate email password
     = Normal (template_prefix +:+ password +:+ template_suffix)) /\
  (forall email1 email2 password,
     _defaultEmailTemplate email1 password = _defaultEmailTemplate email2 password) /\
  (forall email1 email2 password1 password2,
     _defaultEmailTemplate email1 password1 = _defaultEmailTemplate email2 password2 ->
     password1 = password2) /\
  (forall W this email st c d m res,
     Options.emailTemplateFunction (options this) = _defaultEmailTemplate ->
     In (EvSend c d m res) (snd (resetPasswordByEmail W this email st)) ->
     text m = template_prefix +:+ generated W this st +:+ template_suffix /\
     In (EvHash (generated W this st) (Options.saltRounds (options this))
           (bcrypt_hash W (generated W this st) (Options.saltRounds (options this))))
        (snd (resetPasswordByEmail W this email st))).
Proof.
  split; [|split; [|split]].
  - intros email password. apply default_template_text.
  - intros email1 email2 password. reflexivity.
  - intros email1 email2 password1 password2 H.
    rewrite !default_template_text in H. injection H as H.
    apply String.app_inj in H. apply append_inj_r in H. exact H.
  - intros W this email st c d m res Hdefault Hin.
    destruct (resetPasswordByEmail W this email st) as [[r st'] tr] eqn:Hrun.
    simpl in Hin.
    invert_run Hrun; absurd_event;
      match goal with
      | H : Options.emailTemplateFunction _ _ _ = Normal _ |- _ =>
          rewrite Hdefault, default_template_text in H; injection H as <-
      end;
      (split; [reflexivity | right; left; congruence]).
Qed.

Lemma default_template_carries_password_witness :
  exists c d m res,
    In (EvSend c d m res)
       (snd (resetPasswordByEmail sample_world (sample_instance None) "user@example.com"
               empty_directory)) /\
    text m = template_prefix
             +:+ generated sample_world (sample_instance None) empty_directory
             +:+ template_suffix.
Proof.
  assert (Hin : exists c d m res,
            In (EvSend c d m res)
               (snd (resetPasswordByEmail sample_world (sample_instance None)
                       "user@example.com" empty_directory))).
  { vm_compute. eexists _, _, _, _. do 4 right. left. reflexivity. }
  destruct Hin as (c & d & m & res & Hin).
  exists c, d, m, res. split; [exact Hin|].
  destruct default_template_carries_password as (_ & _ & _ & Hrun).
  destruct (Hrun sample_world (sample_instance None) "user@example.com" empty_directory
              c d m res eq_refl Hin) as [Htext _].
  exact Htext.
Defined.

(** ** The Express route *)

(** The handler, unfolded over the run of the operation it awaits. *)
Lemma post_reset_run W this req st :
  post_reset W this req st =
    match Http.body req with
    | None =>
        (Throw (js_TypeError
                  "Cannot destructure property 'email' of 'req.body' as it is undefined."),
         st, [])
    | Some body =>
        if falsy (Http.email body) then
          (Normal {| Http.status := 400; Http.json := email_required |}, st, [])
        else
          match resetPasswordByEmail W this (str (Http.email body)) st with
          | (Normal result, st', tr) =>
              (Normal {| Http.status := if success result then 200 else 400;
                         Http.json := result |}, st', tr)
          | (Throw e, st', tr) =>
              (Normal {| Http.status := 500; Http.json := server_error |}, st',
               tr ++ [EvConsoleError "Password reset error:" e])
          end
    end.
Proof.
  unfold post_reset, destructure_email.
  destruct (Http.body req) as [body|]; [|reflexivity].
  unfold mbind at 1, M_bind at 1, mret at 1, M_ret at 1. cbv beta iota.
  destruct (falsy (Http.email body)); [reflexivity|].
  unfold try_catch, console_error, perform, mbind, M_bind, mret, M_ret.
  destruct (resetPasswordByEmail W this (str (Http.email body)) st)
    as [[[result|e] st'] tr]; simpl; rewrite ?app_nil_r; reflexivity.
Qed.

(** What the operation rejects with is the TypeError of the catch block. *)
Lemma reset_rejects_with_TypeError W this email st e st' tr :
  resetPasswordByEmail W this email st = (Throw e, st', tr) ->
  exists thrown text,
    nullish thrown = true /\ omap thrown_by tr = [thrown] /\ e = js_TypeError text.
Proof.
  intros Hrun.
  invert_run Hrun;
    match goal with
    | H : caught ?x = Throw _ |- _ =>
        exists x; unfold caught in H; destruct x; simpl in H; try discriminate H;
        injection H as <-; eexists; repeat split; reflexivity
    end.
Qed.

(** X11. The route handler answers whenever [req.body] is there.  When
    [req.body] is [undefined] the destructuring before the [try] throws:
    the handler rejects with a TypeError, having called nothing and
    answered nothing.  With a body but no email (absent or empty) it
    answers 400 "Email is required" and calls nothing.  Otherwise the
    status is 200 exactly when the operation resolved with
    [success: true], and the body is then the success object; it is 500,
    with a body that carries no detail, exactly when the operation
    rejected, which needs a collaborator that threw [undefined] or
    [null]; in every other case it is 400 and the body is the
    operation's result. *)
Theorem post_reset_answers W this req st :
  (Http.body req = None ->
   post_reset W this req st
   = (Throw (js_TypeError
               "Cannot destructure property 'email' of 'req.body' as it is undefined."),
      st, [])) /\
  (forall email,
     Http.body req = Some {| Http.email := email |} ->
     exists response st' tr,
       post_reset W this req st = (Normal response, st', tr) /\
       (falsy email = true ->
        response = {| Http.status := 400; Http.json := email_required |} /\
        st' = st /\ tr = []) /\
       (falsy email = false ->
        (Http.status response = 200 <->
         fst (fst (resetPasswordByEmail W this (str email) st)) = Normal result_success) /\
        (Http.status response = 200 -> Http.json response = result_success) /\
        (Http.status response = 500 <->
         exists e, fst (fst (resetPasswordByEmail W this (str email) st)) = Throw e) /\
        (Http.status response = 500 ->
         Http.json response = server_error /\
         exists thrown, nullish thrown = true /\ In thrown (omap thrown_by tr)) /\
        (Http.status response = 400 ->
         fst (fst (resetPasswordByEmail W this (str email) st))
         = Normal (Http.json response)))) /\
  ((exists response st' tr, post_reset W this req st = (Normal response, st', tr))
   <-> Http.body req <> None).
Proof.
  split; [|split].
  - intros Hbody. rewrite post_reset_run, Hbody. reflexivity.
  - intros email Hbody. rewrite post_reset_run, Hbody. cbn [Http.email].
    destruct (falsy email) eqn:Hemail.
    + eexists _, _, _. split; [reflexivity|]. split; [|discriminate].
      intros _. repeat split.
    + destruct (resetPasswordByEmail W this (str email) st)
        as [[[result|e] st'] tr] eqn:Hrun.
      * eexists _, _, _. split; [reflexivity|]. split; [discriminate|]. intros _. simpl.
        destruct (success result) eqn:Hs.
        -- rewrite (success_true_is_success W this (str email) st st' tr result Hrun Hs).
           repeat split; try discriminate; try reflexivity.
           intros [e He]. discriminate He.
        -- repeat split; try discriminate; try reflexivity.
           ++ intros H. injection H as ->. discriminate Hs.
           ++ intros [e He]. discriminate He.
      * destruct (reset_rejects_with_TypeError _ _ _ _ _ _ _ Hrun)
          as (thrown & text & Hnull & Hthrown & _).
        eexists _, _, _. split; [reflexivity|]. split; [discriminate|]. intros _. simpl.
        repeat split; try discriminate; try reflexivity.
        -- eexists. reflexivity.
        -- exists thrown. split; [exact Hnull|].
           rewrite omap_app, Hthrown. simpl. left. reflexivity.
  - rewrite post_reset_run. destruct (Http.body req) as [body|].
    + split; [discriminate|]. intros _.
      destruct (falsy (Http.email body)); [eexists _, _, _; reflexivity|].
      destruct (resetPasswordByEmail W this (str (Http.email body)) st)
        as [[[result|e] st'] tr]; eexists _, _, _; reflexivity.
    + split; [intros (response & st' & tr & H); discriminate H | intros H; destruct (H eq_refl)].
Qed.

Lemma post_reset_answers_witness :
  post_reset sample_world (sample_instance None) request_without_body empty_directory
  = (Throw (js_TypeError
              "Cannot destructure property 'email' of 'req.body' as it is undefined."),
     empty_directory, []) /\
  exists response st' tr,
    post_reset sample_world (sample_instance None) (request_with (Some "user@example.com"))
      empty_directory = (Normal response, st', tr) /\
    Http.status response = 200 /\
    Http.json response = result_success.
Proof.
  split.
  - apply (post_reset_answers sample_world (sample_instance None) request_without_body
             empty_directory).
    reflexivity.
  - destruct (post_reset_answers sample_world (sample_instance None)
                (request_with (Some "user@example.com")) empty_directory)
      as (_ & Hbody & _).
    destruct (Hbody (Some "user@example.com") eq_refl)
      as (response & st' & tr & Hrun & _ & Hsome).
    exists response, st', tr. split; [exact Hrun|].
    destruct (Hsome eq_refl) as ([_ H200] & Hjson & _).
    assert (Hstatus : Http.status response = 200) by (apply H200; vm_compute; reflexivity).
    split; [exact Hstatus | exact (Hjson Hstatus)].
Defined.

(** What a run resolves to when one of its calls threw a value that has
    properties. *)
Lemma thrown_is_reported W this email st r st' tr e :
  resetPasswordByEmail W this email st = (r, st', tr) ->
  In e (omap thrown_by tr) ->
  nullish e = false ->
  r = Normal (result_unexpected
                match e with
                | JsObject props => own_property "message" props
                | _ => JsUndefined
                end).
Proof.
  intros Hrun Hin Hobj.
  invert_run Hrun; absurd_event; apply caught_nullish, Hobj.
Qed.

(** X12. The route hands the text of internal errors to the client: when
    a step of the operation threw a value [e] other than [undefined] and
    [null] (an error of the directory client, of bcrypt, of the template
    or of the mail client), the answer is 400 and its body carries
    [e.message] in [error]. *)
Theorem post_reset_exposes_error W this email st r st' tr e :
  falsy email = false ->
  resetPasswordByEmail W this (str email) st = (r, st', tr) ->
  In e (omap thrown_by tr) ->
  nullish e = false ->
  post_reset W this (request_with email) st
  = (Normal {| Http.status := 400;
               Http.json :=
                 {| success := false;
                    message := "An unexpected error occurred";
                    error := Some match e with
                                  | JsObject props => own_property "message" props
                                  | _ => JsUndefined
                                  end |} |},
     st', tr).
Proof.
  intros Hemail Hrun Hin Hobj.
  rewrite post_reset_run. cbn [request_with Http.body Http.email].
  rewrite Hemail, Hrun.
  rewrite (thrown_is_reported _ _ _ _ _ _ _ _ Hrun Hin Hobj). reflexivity.
Qed.

Lemma post_reset_exposes_error_witness :
  exists st' tr,
    post_reset (with_send sample_world (Throw (js_Error "Forbidden")))
      (sample_instance None) (request_with (Some "user@example.com")) empty_directory
    = (Normal {| Http.status := 400;
                 Http.json := result_unexpected (JsString "Forbidden") |}, st', tr).
Proof.
  set (run := resetPasswordByEmail (with_send sample_world (Throw (js_Error "Forbidden")))
                (sample_instance None) "user@example.com" empty_directory).
  exists (snd (fst run)), (snd run).
  apply (post_reset_exposes_error (with_send sample_world (Throw (js_Error "Forbidden")))
           (sample_instance None) (Some "user@example.com") empty_directory
           (fst (fst run)) (snd (fst run)) (snd run) (js_Error "Forbidden")).
  - reflexivity.
  - change (str (Some "user@example.com")) with "user@example.com".
    fold run. clearbody run. destruct run as [[? ?] ?]; reflexivity.
  - vm_compute. left. reflexivity.
  - reflexivity.
Defined.

(** ** example.js *)

(** The wrapper, unfolded over the run of the operation it awaits. *)
Lemma resetUserPassword_run W this email st :
  exists res last_line,
    resetUserPassword W this email st
    = (Normal res, snd (fst (resetPasswordByEmail W this email st)),
       ConsoleLog [JsString ("Attempting to reset password for " +:+ email +:+ "...")]
       :: map Service (snd (resetPasswordByEmail W this email st)) ++ [last_line]) /\
    match fst (fst (resetPasswordByEmail W this email st)) with
    | Normal result =>
        res = result /\
        last_line = ConsoleLog [JsString (if success result then "✅ Success:"
                                          else "❌ Failed:");
                                JsString (message result)]
    | Throw e =>
        (exists text, e = js_TypeError text /\ res = result_unexpected (JsString text)) /\
        last_line = Service (EvConsoleError "Error resetting password:" e)
    end.
Proof.
  unfold resetUserPassword.
  destruct (resetPasswordByEmail W this email st) as [[[result|e] st'] tr] eqn:Hrun.
  - eexists _, _. split; [reflexivity|]. split; reflexivity.
  - destruct (reset_rejects_with_TypeError _ _ _ _ _ _ _ Hrun) as (_ & text & _ & _ & ->).
    eexists _, _. split; [reflexivity|]. split; [|reflexivity].
    exists text. split; reflexivity.
Qed.

Lemma main_run W this argv2 st :
  exists last_line,
    main W this argv2 st
    = (snd (fst (resetPasswordByEmail W this
                   (if falsy argv2 then "user@example.com" else str argv2) st)),
       ConsoleLog [JsString ("Attempting to reset password for "
                             +:+ (if falsy argv2 then "user@example.com" else str argv2)
                             +:+ "...")]
       :: map Service (snd (resetPasswordByEmail W this
                              (if falsy argv2 then "user@example.com" else str argv2) st))
       ++ [last_line; ConsoleLog [JsString "Process completed"]]) /\
    (forall c d m res, last_line <> Service (EvSend c d m res)) /\
    (forall err, last_line <> Service (EvConsoleError "Process failed:" err)).
Proof.
  unfold main.
  set (userEmail := if falsy argv2 then "user@example.com" else str argv2).
  destruct (resetUserPassword_run W this userEmail st) as (res & last_line & Hrun & Hcase).
  rewrite Hrun. exists last_line. split; [|split].
  - simpl. rewrite <- app_assoc. reflexivity.
  - intros c d m r0 ->.
    destruct (fst (fst (resetPasswordByEmail W this userEmail st)));
      destruct Hcase as [_ Hl]; discriminate Hl.
  - intros err ->.
    destruct (fst (fst (resetPasswordByEmail W this userEmail st)));
      destruct Hcase as [_ Hl]; discriminate Hl.
Qed.

(** X13. [resetUserPassword] never rejects, whatever the collaborators
    do: it returns the operation's result when that resolves, and when
    the operation rejects (its catch block threw a TypeError) it returns
    [{ success: false, message: "An unexpected error occurred", error }]
    with the TypeError's text.  The directory is as the operation left
    it. *)
Theorem resetUserPassword_total W this email st :
  exists res,
    fst (fst (resetUserPassword W this email st)) = Normal res /\
    snd (fst (resetUserPassword W this email st))
    = snd (fst (resetPasswordByEmail W this email st)) /\
    match fst (fst (resetPasswordByEmail W this email st)) with
    | Normal result => res = result
    | Throw e =>
        exists text, e = js_TypeError text /\ res = result_unexpected (JsString text)
    end.
Proof.
  destruct (resetUserPassword_run W this email st) as (res & last_line & Hrun & Hcase).
  exists res. rewrite Hrun. split; [reflexivity|]. split; [reflexivity|].
  destruct (fst (fst (resetPasswordByEmail W this email st))); destruct Hcase as [H _]; exact H.
Qed.

(** X14. The script's [main] always ends with "Process completed": its
    [.catch] never runs, and "Process failed:" is never printed.  The
    operation is run once, for [process.argv[2]], or for
    "user@example.com" when that is absent or empty. *)
Theorem main_completes W this argv2 st :
  let userEmail := if falsy argv2 then "user@example.com" else str argv2 in
  exists last_line,
    main W this argv2 st
    = (snd (fst (resetPasswordByEmail W this userEmail st)),
       ConsoleLog [JsString ("Attempting to reset password for " +:+ userEmail +:+ "...")]
       :: map Service (snd (resetPasswordByEmail W this userEmail st))
       ++ [last_line; ConsoleLog [JsString "Process completed"]]) /\
    (forall err, ~ In (Service (EvConsoleError "Process failed:" err))
                      (snd (main W this argv2 st))).
Proof.
  cbv zeta.
  destruct (main_run W this argv2 st) as (last_line & Hrun & _ & Hlast).
  exists last_line. split; [exact Hrun|].
  rewrite Hrun. set (userEmail := if falsy argv2 then "user@example.com" else str argv2).
  intros err Hin. simpl in Hin. destruct Hin as [Hin|Hin]; [discriminate Hin|].
  apply in_app_or in Hin as [Hin|Hin].
  - apply in_map_iff in Hin as (ev & Hev & Hin). injection Hev as ->.
    destruct (resetPasswordByEmail W this userEmail st) as [[r st'] tr] eqn:Hreset.
    simpl in Hin. invert_run Hreset; absurd_event.
  - simpl in Hin. destruct Hin as [Hin|[Hin|[]]]; [|discriminate Hin].
    exact (Hlast err Hin).
Qed.

(** A send in the trace of a run uses the instance's client and domain
    and the object literal of the source. *)
Lemma send_event_shape W this email st r st' tr c d m res :
  resetPasswordByEmail W this email st = (r, st', tr) ->
  In (EvSend c d m res) tr ->
  c = mailgun this /\ d = mailgunDomain this /\ m = emailData this email (text m).
Proof.
  intros Hrun Hin. invert_run Hrun; absurd_event; repeat split.
Qed.

(** X15. [node example.js [email]]: when one of SUPABASE_URL,
    SUPABASE_SERVICE_KEY, MAILGUN_API_KEY, MAILGUN_DOMAIN is unset or
    empty the script dies with the configuration error before it calls
    anything.  Otherwise every mail it sends goes to the address given
    on the command line ("user@example.com" without one), through the
    domain of MAILGUN_DOMAIN with the key of MAILGUN_API_KEY, and with
    the defaults of the class: from "Password Reset
    <noreply@yourdomain.com>", subject "Your Password Has Been Reset". *)
Theorem node_example_mail W env argv2 st :
  (Exists (fun name => env !! name = None \/ env !! name = Some "")
     ["SUPABASE_URL"; "SUPABASE_SERVICE_KEY"; "MAILGUN_API_KEY"; "MAILGUN_DOMAIN"] ->
   node_example W env argv2 st
   = (Throw (js_Error "Missing required configuration parameters"), st, [])) /\
  (forall c d m res,
     In (Service (EvSend c d m res)) (snd (node_example W env argv2 st)) ->
     to m = (if falsy argv2 then "user@example.com" else str argv2) /\
     from m = "Password Reset <noreply@yourdomain.com>" /\
     subject m = "Your Password Has Been Reset" /\
     env !! "MAILGUN_DOMAIN" = Some d /\
     env !! "MAILGUN_API_KEY" = Some (key c) /\
     username c = "api").
Proof.
  unfold node_example. split.
  - intros Hmiss.
    assert (Hm : missing_required (example_config env)).
    { unfold missing_required, example_config. simpl.
      rewrite !Exists_cons, Exists_nil in *. tauto. }
    rewrite (constructor_missing W _ st Hm). reflexivity.
  - intros c d m res Hin.
    destruct (missing_required_dec (example_config env)) as [Hm|Hok].
    { rewrite (constructor_missing W _ st Hm) in Hin. destruct Hin. }
    rewrite (constructor_complete W _ st Hok) in Hin.
    assert (Hset : forall v, (v = None \/ v = Some "" -> False) -> v = Some (str v)).
    { intros [s|] Hv; [reflexivity | exfalso; apply Hv; left; reflexivity]. }
    unfold missing_required in Hok. rewrite !Exists_cons, Exists_nil in Hok.
    simpl in Hok.
    destruct (createClient_throws W _ _).
    { simpl in Hin. destruct Hin as [Hin|[]]. discriminate Hin. }
    destruct (mailgun_client_throws W _ _).
    { simpl in Hin. destruct Hin as [Hin|[Hin|[]]]; discriminate Hin. }
    match type of Hin with
    | context [main W ?this argv2 st] =>
        destruct (main_run W this argv2 st) as (last_line & Hrun & Hnot & _);
        rewrite Hrun in Hin; set (instance := this) in *
    end.
    simpl in Hin.
    destruct Hin as [Hin|[Hin|[Hin|Hin]]]; try discriminate Hin.
    apply in_app_or in Hin as [Hin|Hin].
    + apply in_map_iff in Hin as (ev & Hev & Hin). injection Hev as ->.
      match type of Hin with
      | In _ (snd (resetPasswordByEmail W instance ?e st)) =>
          destruct (resetPasswordByEmail W instance e st) as [[r st'] tr] eqn:Hreset
      end.
      destruct (send_event_shape _ _ _ _ _ _ _ _ _ _ _ Hreset Hin) as (-> & -> & ->).
      simpl. repeat split; apply Hset; tauto.
    + simpl in Hin. destruct Hin as [Hin|[Hin|[]]]; [|discriminate Hin].
      exfalso. exact (Hnot _ _ _ _ Hin).
Qed.

Lemma node_example_mail_witness :
  exists c d m res,
    In (Service (EvSend c d m res))
       (snd (node_example sample_world sample_env None empty_directory)) /\
    to m = "user@example.com" /\
    from m = "Password Reset <noreply@yourdomain.com>" /\
    d = "your-mailgun-domain.com".
Proof.
  assert (Hin : exists c d m res,
            In (Service (EvSend c d m res))
               (snd (node_example sample_world sample_env None empty_directory))).
  { vm_compute. eexists _, _, _, _. do 7 right. left. reflexivity. }
  destruct Hin as (c & d & m & res & Hin).
  exists c, d, m, res. split; [exact Hin|].
  destruct (node_example_mail sample_world sample_env None empty_directory) as [_ Hmail].
  destruct (Hmail c d m res Hin) as (Hto & Hfrom & _ & Hdomain & _).
  split; [exact Hto|]. split; [exact Hfrom|].
  assert (Hd : sample_env !! "MAILGUN_DOMAIN" = Some "your-mailgun-domain.com")
    by (vm_compute; reflexivity).
  rewrite Hd in Hdomain. injection Hdomain as <-. reflexivity.
Defined.

(** X16. The route's module constructs its instance with
    [fromEmail: 'support@yourcompany.com'] and
    [fromName: 'Your Company Support']: every mail the handler causes is
    from "Your Company Support <support@yourcompany.com>", under the
    default subject, through the domain of MAILGUN_DOMAIN, and goes to
    the (non-empty) [req.body.email]. *)
Theorem route_mail W env st0 this st1 tr0 req st c d m res :
  constructor W (route_config env) st0 = (Normal this, st1, tr0) ->
  In (EvSend c d m res) (snd (post_reset W this req st)) ->
  exists email,
    Http.body req = Some {| Http.email := email |} /\
    falsy email = false /\
    to m = str email /\
    from m = "Your Company Support <support@yourcompany.com>" /\
    subject m = "Your Password Has Been Reset" /\
    env !! "MAILGUN_DOMAIN" = Some d.
Proof.
  intros Hc Hin.
  destruct (constructor_options _ _ _ _ _ _ Hc) as [Hok Hopt].
  rewrite (constructor_complete W _ st0 Hok) in Hc.
  destruct (createClient_throws W _ _); [discriminate Hc|].
  destruct (mailgun_client_throws W _ _); [discriminate Hc|].
  injection Hc as <- _ _.
  rewrite post_reset_run in Hin.
  destruct (Http.body req) as [[email]|]; [|destruct Hin].
  cbn [Http.email] in Hin.
  exists email. split; [reflexivity|].
  destruct (falsy email) eqn:Hemail; [destruct Hin|].
  split; [reflexivity|].
  match type of Hin with
  | context [resetPasswordByEmail W ?this (str email) st] =>
      destruct (resetPasswordByEmail W this (str email) st) as [[[result|e] st'] tr] eqn:Hreset
  end; simpl in Hin.
  all: try (apply in_app_or in Hin as [Hin|[Hin|[]]]; [|discriminate Hin]).
  all: destruct (send_event_shape _ _ _ _ _ _ _ _ _ _ _ Hreset Hin) as (-> & -> & ->);
    simpl; repeat split.
  all: unfold missing_required in Hok; rewrite !Exists_cons, Exists_nil in Hok;
    simpl in Hok; destruct (env !! "MAILGUN_DOMAIN"); [reflexivity | exfalso; tauto].
Qed.

Lemma route_mail_witness :
  exists c d m res,
    In (EvSend c d m res)
       (snd (post_reset sample_world
               (sample_instance (Config.options (route_config sample_env)))
               (request_with (Some "user@example.com")) empty_directory)) /\
    to m = "user@example.com" /\
    from m = "Your Company Support <support@yourcompany.com>".
Proof.
  assert (Hin : exists c d m res,
            In (EvSend c d m res)
               (snd (post_reset sample_world
                       (sample_instance (Config.options (route_config sample_env)))
                       (request_with (Some "user@example.com")) empty_directory))).
  { vm_compute. eexists _, _, _, _. do 4 right. left. reflexivity. }
  destruct Hin as (c & d & m & res & Hin).
  exists c, d, m, res. split; [exact Hin|].
  destruct (route_mail sample_world sample_env empty_directory
              (sample_instance (Config.options (route_config sample_env)))
              empty_directory
              [EvCreateClient "https://your-project.supabase.co"
                 "your-supabase-service-role-key";
               EvMailgunClient "api" "your-mailgun-api-key"]
              (request_with (Some "user@example.com")) empty_directory c d m res)
    as (email & Hbody & _ & Hto & Hfrom & _).
  - vm_compute. reflexivity.
  - exact Hin.
  - injection Hbody as <-. split; [exact Hto | exact Hfrom].
Defined.

(** ** The React form *)

(** X17. [handleSubmit] always ends with [isSubmitting] false and a new
    status.  The status has type "success" exactly when the response was
    read and its [success] is truthy; the email field is then cleared
    and the message is the response's.  In every other case the type is
    "error" and the email stays: with the response's message when the
    response was read, and with "Failed to connect to the server. Please
    try again later." when the request or the parsing failed, or the
    JSON was [null]. *)
Theorem handleSubmit_outcome fetch_json s :
  let s' := handleSubmit fetch_json s in
  Form.isSubmitting s' = false /\
  (Form.type (Form.status s') = "success" <->
   exists msg ok,
     read_response (fetch_json (Form.email s)) = Normal (msg, ok) /\ truthy ok = true) /\
  (forall msg ok,
     read_response (fetch_json (Form.email s)) = Normal (msg, ok) ->
     Form.message (Form.status s') = msg /\
     (truthy ok = true -> Form.email s' = "") /\
     (truthy ok = false ->
      Form.email s' = Form.email s /\ Form.type (Form.status s') = "error")) /\
  (forall e,
     read_response (fetch_json (Form.email s)) = Throw e ->
     Form.email s' = Form.email s /\
     Form.status s'
     = {| Form.message :=
            JsString "Failed to connect to the server. Please try again later.";
          Form.type := "error" |}) /\
  (fetch_json (Form.email s) = Normal JsNull ->
   exists e, read_response (fetch_json (Form.email s)) = Throw e).
Proof.
  cbv zeta. unfold handleSubmit.
  split; [reflexivity|]. split; [|split; [|split]].
  - destruct (read_response (fetch_json (Form.email s))) as [[msg ok]|e] eqn:Hread.
    + destruct (truthy ok) eqn:Hok; simpl; split.
      * intros _. exists msg, ok. split; [reflexivity | exact Hok].
      * reflexivity.
      * discriminate.
      * intros (msg' & ok' & Heq & Hok'). injection Heq as <- <-. congruence.
    + simpl. split; [discriminate|]. intros (msg & ok & Heq & _). discriminate Heq.
  - intros msg ok ->. destruct (truthy ok); simpl; repeat split; try discriminate.
  - intros e ->. simpl. split; reflexivity.
  - intros ->. simpl. eexists. reflexivity.
Qed.

Lemma handleSubmit_outcome_witness :
  Form.type (Form.status (handleSubmit (fun _ => Normal success_json) typed_form))
  = "success" /\
  Form.email (handleSubmit (fun _ => Normal success_json) typed_form) = "".
Proof.
  destruct (handleSubmit_outcome (fun _ => Normal success_json) typed_form)
    as (_ & [_ Htype] & Hread & _).
  split.
  - apply Htype. eexists _, _. split; reflexivity.
  - destruct (Hread _ _ eq_refl) as (_ & Hclear & _). apply Hclear. reflexivity.
Defined.

(** X18. What the user sees.  While the request is under way the button
    is disabled, reads "Processing..." and no status is shown.
    Afterwards the button reads "Reset Password" again and is disabled
    exactly when the email field is empty, so a successful reset leaves
    it disabled until an address is typed.  A status is shown exactly
    when its message is truthy: always after a failed request, and after
    an answer only if the answer had a non-empty [message]. *)
Theorem form_view fetch_json s :
  let s' := handleSubmit fetch_json s in
  (submit_disabled (submitting s) = true /\
   submit_label (submitting s) = "Processing..." /\
   status_shown (submitting s) = false) /\
  submit_label s' = "Reset Password" /\
  (submit_disabled s' = true <-> Form.email s' = "") /\
  (Form.type (Form.status s') = "success" -> submit_disabled s' = true) /\
  (forall e, read_response (fetch_json (Form.email s)) = Throw e ->
             status_shown s' = true) /\
  (forall msg ok, read_response (fetch_json (Form.email s)) = Normal (msg, ok) ->
                  status_shown s' = truthy msg).
Proof.
  cbv zeta. split; [repeat split|].
  split; [reflexivity|]. split; [|split; [|split]].
  - unfold submit_disabled. unfold handleSubmit at 1. simpl Form.isSubmitting.
    rewrite orb_false_l. apply String.eqb_eq.
  - intros Htype. unfold submit_disabled, handleSubmit in *.
    destruct (read_response (fetch_json (Form.email s))) as [[msg ok]|e];
      [destruct (truthy ok)|]; simpl in *; try discriminate Htype; reflexivity.
  - intros e He. unfold status_shown, handleSubmit. rewrite He. reflexivity.
  - intros msg ok Hread. unfold status_shown, handleSubmit. rewrite Hread.
    destruct (truthy ok); reflexivity.
Qed.

Lemma form_view_witness :
  submit_disabled (handleSubmit (fun _ => Normal success_json) typed_form) = true.
Proof.
  destruct (form_view (fun _ => Normal success_json) typed_form)
    as (_ & _ & _ & Hsuccess & _).
  apply Hsuccess. reflexivity.
Defined.
